(** * Horizon-crossing detector and compass helper of the celestial scripts

    A shallow embedding of

    - [find_rise_transit_set] from [voyager_from_kc-3.py] (lines 41-82; the
      copy in [archive/voyager_from_kc-2.py], lines 45-86, has the same
      statements), and
    - [get_compass_direction] from [moon.py] (lines 31-35; the copies in
      [planets.py], [mars.py], [moon_24h.py] and [archive/moon-02.py] are
      identical).

    Numbers.  Altitudes and azimuths are Python floats and timestamps are
    [datetime] values.  Every finite float is a rational number, and the
    comparisons of the source ([<= 0], [> 0], [max], [argmax]) are exact
    on finite floats, so altitudes are modelled as [Q].  A timestamp is
    modelled as the rational number of seconds since a fixed epoch, so that
    [(t1 - t0).total_seconds()] is [t1 - t0] and [t + timedelta(seconds=d)]
    is [t + d].  The arithmetic of the interpolation is taken exactly: the
    rounding of binary64 and of [timedelta] to whole microseconds is not
    part of this model, and neither are NaN and the infinities.

    Errors.  Python exceptions are values of [exn]; a computation that can
    raise returns a [result]. *)

From Stdlib Require Import String.
From Stdlib Require Import QArith ZArith List Lia Lqa Qround Bool.
From Stdlib Require Import Qabs DecimalString Ascii.
Import ListNotations.
Open Scope Q_scope.

(** ** Python built-ins used by the scripts *)

Module Py.

Inductive exn : Set :=
| ValueError
| IndexError
| ZeroDivisionError.

Inductive result (A : Type) : Type :=
| Ok (a : A)
| Raise (e : exn).

Arguments Ok {A} a.
Arguments Raise {A} e.

Definition bind {A B : Type} (c : result A) (k : A -> result B) : result B :=
  match c with
  | Ok a => k a
  | Raise e => Raise e
  end.

(** [x < y] on rationals, as a boolean ([Qle_bool] is the library's [<=]). *)
Definition Qlt_bool (x y : Q) : bool :=
  (Qnum x * QDen y <? Qnum y * QDen x)%Z.

(** [l[i]] for an index [i >= 0]: [IndexError] past the end. *)
Definition getitem {A : Type} (l : list A) (i : nat) : result A :=
  match nth_error l i with
  | Some x => Ok x
  | None => Raise IndexError
  end.

(** [l[i]] for any integer index: a negative index counts from the end. *)
Definition getitem_int {A : Type} (l : list A) (i : Z) : result A :=
  let n := Z.of_nat (length l) in
  if (i <? 0)%Z
  then if (i + n <? 0)%Z then Raise IndexError else getitem l (Z.to_nat (i + n))
  else getitem l (Z.to_nat i).

(** [range(start, stop)]. *)
Definition range (start stop : nat) : list nat := seq start (stop - start).

(** The loop of the built-in [max]: the running maximum is replaced only
    by an item that is strictly greater. *)
Fixpoint max_loop (maxitem : Q) (l : list Q) : Q :=
  match l with
  | [] => maxitem
  | item :: rest => max_loop (if Qlt_bool maxitem item then item else maxitem) rest
  end.

(** [max(l)]: [ValueError] on an empty sequence. *)
Definition max (l : list Q) : result Q :=
  match l with
  | [] => Raise ValueError
  | x :: rest => Ok (max_loop x rest)
  end.

(** The loop of [numpy.argmax]: [i] is the index of the head of [l], and
    the first occurrence of the maximum wins. *)
Fixpoint argmax_loop (best_idx : nat) (best : Q) (i : nat) (l : list Q) : nat :=
  match l with
  | [] => best_idx
  | x :: rest =>
      if Qlt_bool best x
      then argmax_loop i x (S i) rest
      else argmax_loop best_idx best (S i) rest
  end.

(** [numpy.argmax(l)]: [ValueError] on an empty sequence. *)
Definition argmax (l : list Q) : result nat :=
  match l with
  | [] => Raise ValueError
  | x :: rest => Ok (argmax_loop 0%nat x 1%nat rest)
  end.

(** [x / y] on floats. *)
Definition truediv (x y : Q) : result Q :=
  if Qeq_bool y 0 then Raise ZeroDivisionError else Ok (x / y).

(** [round(x)] with one argument: the nearest integer, a tie going to the
    even neighbour. *)
Definition round (x : Q) : Z :=
  let f := Qfloor x in
  match Qcompare (x - inject_Z f) (1 # 2) with
  | Lt => f
  | Gt => (f + 1)%Z
  | Eq => if Z.even f then f else (f + 1)%Z
  end.

End Py.

Import Py.

Declare Scope py_scope.
Delimit Scope py_scope with py.
Notation "x <- c ;; k" := (bind c (fun x => k))
  (at level 61, c at next level, right associativity) : py_scope.
Open Scope py_scope.

(** ** Formatting of floats, as used by the f-strings of the scripts *)

Module PyFormat.

(** The decimal digits of a non-negative integer. *)
Definition digits (n : Z) : string :=
  NilZero.string_of_uint (N.to_uint (Z.to_N n)).

Fixpoint zeros (k : nat) : string :=
  match k with
  | O => EmptyString
  | S k' => String "0" (zeros k')
  end.

Definition zero_pad (width : nat) (s : string) : string :=
  (zeros (width - String.length s) ++ s)%string.

(** A comma before every group of three digits, counted from the right;
    [remaining] is the number of characters of [s]. *)
Fixpoint commas_from (s : string) (remaining : nat) : string :=
  match s with
  | EmptyString => EmptyString
  | String c rest =>
      String c
        (if Nat.eqb ((remaining - 1) mod 3) 0 && negb (Nat.eqb (remaining - 1) 0)
         then String "," (commas_from rest (remaining - 1))
         else commas_from rest (remaining - 1))
  end.

Definition commas (s : string) : string := commas_from s (String.length s).

(** [n] units of [10^-prec] in fixed-point notation: the integer part, with
    commas when [grouped], and for [prec > 0] a point and [prec] decimals. *)
Definition fixed (prec : nat) (grouped : bool) (n : Z) : string :=
  let scale := (10 ^ Z.of_nat prec)%Z in
  let int_part := digits (n / scale) in
  ((if grouped then commas int_part else int_part) ++
   match prec with
   | O => EmptyString
   | _ => String "." (zero_pad prec (digits (n mod scale)))
   end)%string.

(** [format(x, ".<prec>f")] and, when [grouped], [format(x, ",.<prec>f")]:
    the value is rounded to [prec] decimals, a tie going to the even last
    digit, and a negative value keeps its sign even when it rounds to
    zero. *)
Definition format_fixed (prec : nat) (grouped : bool) (x : Q) : string :=
  let n := Py.round (Qabs x * inject_Z (10 ^ Z.of_nat prec)) in
  ((if Qlt_bool x 0 then "-" else "") ++ fixed prec grouped n)%string.

Definition format_f (prec : nat) (x : Q) : string := format_fixed prec false x.

Definition format_comma_f (prec : nat) (x : Q) : string := format_fixed prec true x.

(** [int(x)] on a float: the integer part, towards zero. *)
Definition int (x : Q) : Z := Z.quot (Qnum x) (Z.pos (Qden x)).

(** [str(n)] on an integer, as an f-string prints it. *)
Definition str_int (n : Z) : string :=
  if (n <? 0)%Z then String "-" (digits (- n)) else digits n.

(** [x % y] on floats for [y > 0]: the result has the sign of [y]. *)
Definition float_mod (x y : Q) : Q := x - y * inject_Z (Qfloor (x / y)).

(** The double quote character. *)
Definition dquote : string := String (ascii_of_nat 34) EmptyString.

End PyFormat.

(** ** voyager_from_kc-3.py *)

Module Voyager.

(** What [find_rise_transit_set] returns: [None] is an absent event. *)
Definition events : Type := (option Q * option Q * option Q)%type.

(** Lines 61-64 (and again, word for word, lines 76-79): the crossing
    time between samples [i-1] and [i] by linear interpolation.  The
    formula is evaluated exactly; the code evaluates it in binary64 and
    [timedelta] rounds the result to whole microseconds, so that an instant
    it reports can fall on a sample time where the exact one is strictly
    inside the interval. *)
Definition interpolate (times altitudes : list Q) (i : nat) : result Q :=
  ti <- getitem times i ;;
  ti1 <- getitem times (i - 1) ;;
  let t_diff := ti - ti1 in
  ai <- getitem altitudes i ;;
  ai1 <- getitem altitudes (i - 1) ;;
  let alt_diff := ai - ai1 in
  a <- getitem altitudes (i - 1) ;;
  delta_t <- truediv (t_diff * (0 - a)) alt_diff ;;
  t <- getitem times (i - 1) ;;
  Ok (t + delta_t).

(** [altitudes[i-1] <= 0 and altitudes[i] > 0] (line 59); [and] does not
    evaluate its second operand when the first is false. *)
Definition rising (altitudes : list Q) (i : nat) : result bool :=
  prev <- getitem altitudes (i - 1) ;;
  if Qle_bool prev 0
  then cur <- getitem altitudes i ;; Ok (Qlt_bool 0 cur)
  else Ok false.

(** [altitudes[i-1] > 0 and altitudes[i] <= 0] (line 74). *)
Definition setting (altitudes : list Q) (i : nat) : result bool :=
  prev <- getitem altitudes (i - 1) ;;
  if Qlt_bool 0 prev
  then cur <- getitem altitudes i ;; Ok (Qle_bool cur 0)
  else Ok false.

(** The two [for] loops (lines 58-65 and 73-80) differ only in their test.
    [idxs] is what is left of [range(1, len(altitudes))] and [var] the
    current value of the variable the loop assigns ([rise_time] or
    [set_time]); the first index that passes the test assigns the
    variable and breaks. *)
Fixpoint crossing_loop (test : list Q -> nat -> result bool)
    (times altitudes : list Q) (idxs : list nat) (var : option Q)
    : result (option Q) :=
  match idxs with
  | [] => Ok var
  | i :: rest =>
      b <- test altitudes i ;;
      if b : bool
      then t <- interpolate times altitudes i ;; Ok (Some t)
      else crossing_loop test times altitudes rest var
  end.

Definition find_rise_transit_set (times altitudes : list Q) : result events :=
  let rise_time : option Q := None in
  let transit_time : option Q := None in
  let set_time : option Q := None in
  (* Check if object ever rises above horizon *)
  m <- Py.max altitudes ;;
  if Qle_bool m 0 then Ok (None, None, None) else
  (* Find rise time *)
  rise_time <- crossing_loop rising times altitudes
                 (range 1 (length altitudes)) rise_time ;;
  (* Find transit time *)
  m' <- Py.max altitudes ;;
  transit_time <-
    (if Qlt_bool 0 m'
     then max_alt_idx <- argmax altitudes ;;
          t <- getitem times max_alt_idx ;;
          Ok (Some t)
     else Ok transit_time) ;;
  (* Find set time *)
  set_time <- crossing_loop setting times altitudes
                (range 1 (length altitudes)) set_time ;;
  Ok (rise_time, transit_time, set_time).

(** The three components of a returned triple. *)
Definition rise_of (e : events) : option Q := fst (fst e).
Definition transit_of (e : events) : option Q := snd (fst e).
Definition set_of (e : events) : option Q := snd e.

End Voyager.

(** ** voyager_from_kc-3.py, with the store made explicit

    Python passes [times] and [altitudes] by reference, and the function
    assigns its local variables.  Here the function runs on a state that
    holds the sequence objects of the process and the three variables it
    returns, so that what it reads and what it writes can be stated. *)

Module VoyagerStore.

(** The identity of a sequence object (a list or an array). *)
Definition ref : Type := nat.

Record state : Type := {
  objects : ref -> list Q;
  rise_time : option Q;
  transit_time : option Q;
  set_time : option Q
}.

(** A statement or an expression: it ends with a value or an exception, in
    a new state. *)
Definition prog (A : Type) : Type := state -> result A * state.

Definition ret {A : Type} (a : A) : prog A := fun s => (Ok a, s).

Definition and_then {A B : Type} (c : prog A) (k : A -> prog B) : prog B :=
  fun s =>
    match c s with
    | (Ok a, s') => k a s'
    | (Raise e, s') => (Raise e, s')
    end.

(** An expression on the sequence [r]: [r[i]], [len(r)], [max(r)],
    [np.argmax(r)]. *)
Definition read {A : Type} (r : ref) (f : list Q -> result A) : prog A :=
  fun s => (f (objects s r), s).

(** An expression that uses no object of the store. *)
Definition eval {A : Type} (v : result A) : prog A := fun s => (v, s).

(** The assignments [rise_time = v], [transit_time = v] and [set_time = v]. *)
Definition assign_rise_time (v : option Q) : prog unit :=
  fun s => (Ok tt, {| objects := objects s; rise_time := v;
                      transit_time := transit_time s; set_time := set_time s |}).

Definition assign_transit_time (v : option Q) : prog unit :=
  fun s => (Ok tt, {| objects := objects s; rise_time := rise_time s;
                      transit_time := v; set_time := set_time s |}).

Definition assign_set_time (v : option Q) : prog unit :=
  fun s => (Ok tt, {| objects := objects s; rise_time := rise_time s;
                      transit_time := transit_time s; set_time := v |}).

(** [return rise_time, transit_time, set_time] (line 82). *)
Definition return_events : prog Voyager.events :=
  fun s => (Ok (rise_time s, transit_time s, set_time s), s).

Declare Scope store_scope.
Delimit Scope store_scope with store.
Notation "x <~ c ;; k" := (and_then c (fun x => k))
  (at level 61, c at next level, right associativity) : store_scope.
Notation "c ;;; k" := (and_then c (fun _ => k))
  (at level 61, right associativity) : store_scope.
Local Open Scope store_scope.

(** Lines 61-64 and 76-79. *)
Definition interpolate (times altitudes : ref) (i : nat) : prog Q :=
  ti <~ read times (fun l => getitem l i) ;;
  ti1 <~ read times (fun l => getitem l (i - 1)) ;;
  let t_diff := ti - ti1 in
  ai <~ read altitudes (fun l => getitem l i) ;;
  ai1 <~ read altitudes (fun l => getitem l (i - 1)) ;;
  let alt_diff := ai - ai1 in
  a <~ read altitudes (fun l => getitem l (i - 1)) ;;
  delta_t <~ eval (truediv (t_diff * (0 - a)) alt_diff) ;;
  t <~ read times (fun l => getitem l (i - 1)) ;;
  ret (t + delta_t).

(** Line 59. *)
Definition rising (altitudes : ref) (i : nat) : prog bool :=
  prev <~ read altitudes (fun l => getitem l (i - 1)) ;;
  if Qle_bool prev 0
  then cur <~ read altitudes (fun l => getitem l i) ;; ret (Qlt_bool 0 cur)
  else ret false.

(** Line 74. *)
Definition setting (altitudes : ref) (i : nat) : prog bool :=
  prev <~ read altitudes (fun l => getitem l (i - 1)) ;;
  if Qlt_bool 0 prev
  then cur <~ read altitudes (fun l => getitem l i) ;; ret (Qle_bool cur 0)
  else ret false.

(** The two [for] loops (lines 58-65 and 73-80): the first index that
    passes the test assigns the variable of the loop and breaks. *)
Fixpoint crossing_loop (test : ref -> nat -> prog bool)
    (assign : option Q -> prog unit) (times altitudes : ref) (idxs : list nat)
    : prog unit :=
  match idxs with
  | [] => ret tt
  | i :: rest =>
      b <~ test altitudes i ;;
      if b : bool
      then t <~ interpolate times altitudes i ;; assign (Some t)
      else crossing_loop test assign times altitudes rest
  end.

(** [find_rise_transit_set] (lines 41-82), statement by statement. *)
Definition find_rise_transit_set (times altitudes : ref) : prog Voyager.events :=
  assign_rise_time None ;;;
  assign_transit_time None ;;;
  assign_set_time None ;;;
  m <~ read altitudes Py.max ;;
  if Qle_bool m 0 then ret (None, None, None) else
  n <~ read altitudes (fun l => Ok (length l)) ;;
  crossing_loop rising assign_rise_time times altitudes (range 1 n) ;;;
  m' <~ read altitudes Py.max ;;
  (if Qlt_bool 0 m'
   then max_alt_idx <~ read altitudes argmax ;;
        t <~ read times (fun l => getitem l max_alt_idx) ;;
        assign_transit_time (Some t)
   else ret tt) ;;;
  n' <~ read altitudes (fun l => Ok (length l)) ;;
  crossing_loop setting assign_set_time times altitudes (range 1 n') ;;;
  return_events.

End VoyagerStore.

(** ** moon.py *)

Module Moon.

Definition directions : list string :=
  ["N"; "NNE"; "NE"; "ENE"; "E"; "ESE"; "SE"; "SSE";
   "S"; "SSW"; "SW"; "WSW"; "W"; "WNW"; "NW"; "NNW"]%string.

Definition get_compass_direction (azimuth : Q) : result string :=
  let index := (Py.round (azimuth / (45 # 2)) mod 16)%Z in
  getitem_int directions index.

End Moon.

(** ** voyager_from_kc-3.py: the events that [main] prints *)

Module VoyagerReport.

Import Voyager.

(** One constructor for each [print] of the events block of [main]
    (lines 224-245) and for the [print] of its [except] clause (line 248):
    - [ViewingHeader]: "Viewing events in the next 24 hours:"
    - [RemainsBelow name]: "<name> remains below the horizon during the
      entire period."
    - [RiseAt t]: "Rise: <format_time(t)>";
      [RiseNotObserved]: "Rise: Not observed in this time period"
    - [TransitAt t alt]: "Transit: <format_time(t)> (altitude: <alt:.2f>)";
      [TransitNotObserved]: "Transit: Not observed in this time period"
    - [SetAt t]: "Set: <format_time(t)>";
      [SetNotObserved]: "Set: Not observed in this time period"
    - [ErrorRetrieving e]: "Error retrieving data: <str(e)>" *)
Inductive report_line : Type :=
| ViewingHeader
| RemainsBelow (name : string)
| RiseAt (t : Q)
| RiseNotObserved
| TransitAt (t : Q) (transit_alt : Q)
| TransitNotObserved
| SetAt (t : Q)
| SetNotObserved
| ErrorRetrieving (e : exn).

(** Lines 242-245.  A [datetime] is always true in a condition, so
    [if set_time:] asks whether [set_time] is not [None]. *)
Definition set_lines (set_time : option Q) : list report_line :=
  match set_time with
  | Some t => [SetAt t]
  | None => [SetNotObserved]
  end.

(** Lines 234-240, followed by the set lines: the altitude shown with the
    transit is read again from [altitudes] at [np.argmax(altitudes)]; an
    exception there leaves what was printed so far and goes to the
    [except] clause. *)
Definition transit_lines (altitudes : list Q) (transit_time set_time : option Q)
    : list report_line :=
  match transit_time with
  | Some t =>
      match (max_alt_idx <- argmax altitudes ;; getitem altitudes max_alt_idx) with
      | Ok transit_alt => TransitAt t transit_alt :: set_lines set_time
      | Raise e => [ErrorRetrieving e]
      end
  | None => TransitNotObserved :: set_lines set_time
  end.

(** The call of the detector (line 200) and the events block (lines
    224-245) of [main] for one spacecraft, with the [except Exception]
    clause (lines 247-248) that surrounds them.  The lines that [main]
    prints in between (current position, distance, velocity) come from other
    columns of the ephemeris; they are not part of the model and are taken
    to succeed. *)
Definition viewing_events (name : string) (utc_times altitudes : list Q)
    : list report_line :=
  match find_rise_transit_set utc_times altitudes with
  | Raise e => [ErrorRetrieving e]
  | Ok (rise_time, transit_time, set_time) =>
      ViewingHeader ::
      match rise_time, transit_time, set_time with
      | None, None, None => [RemainsBelow name]
      | _, _, _ =>
          (match rise_time with
           | Some t => RiseAt t
           | None => RiseNotObserved
           end) :: transit_lines altitudes transit_time set_time
      end
  end.

End VoyagerReport.

(** ** planets.py *)

Module Planets.

Import PyFormat.

(** [format_distance_km] (lines 42-50). *)
Definition format_distance_km (distance_km : Q) : string :=
  if Qle_bool 1000000000 distance_km
  then (format_f 3 (distance_km / 1000000000) ++ " billion km")%string
  else if Qle_bool 1000000 distance_km
  then (format_f 3 (distance_km / 1000000) ++ " million km")%string
  else if Qle_bool 1000 distance_km
  then (format_f 3 (distance_km / 1000) ++ " thousand km")%string
  else (format_comma_f 0 distance_km ++ " km")%string.

End Planets.

(** ** celestial_objects.py *)

Module CelestialObjects.

Import PyFormat.

(** The locals [is_negative], [d], [m] and [s] of [degrees_to_dms]
    (lines 49-54).  The two products by 60 are taken exactly; the code
    rounds them in binary64, so that its minutes and seconds can differ from
    these in the last place (at 0.3 it has 18 minutes and 0 seconds where
    the exact split has 17 minutes and 59.99... seconds). *)
Definition dms_parts (degrees : Q) : bool * Z * Z * Q :=
  let is_negative := Qlt_bool degrees 0 in
  let degrees := Qabs degrees in
  let d := int degrees in
  let minutes := (degrees - inject_Z d) * 60 in
  let m := int minutes in
  let s := (minutes - inject_Z m) * 60 in
  (is_negative, d, m, s).

(** [degrees_to_dms] (lines 39-61): sign, degrees, minutes, and seconds with
    one decimal. *)
Definition degrees_to_dms (degrees : Q) : string :=
  let '(is_negative, d, m, s) := dms_parts degrees in
  let sign := if is_negative : bool then "-"%string else "+"%string in
  (sign ++ str_int d ++ "° " ++ str_int m ++ "' " ++ format_f 1 s ++ dquote)%string.

(** The locals [h], [m] and [s] of [hours_to_hms] (lines 73-76), with the
    same exact products by 60. *)
Definition hms_parts (hours : Q) : Z * Z * Q :=
  let h := int hours in
  let minutes := (hours - inject_Z h) * 60 in
  let m := int minutes in
  let s := (minutes - inject_Z m) * 60 in
  (h, m, s).

(** [hours_to_hms] (lines 63-78). *)
Definition hours_to_hms (hours : Q) : string :=
  let '(h, m, s) := hms_parts hours in
  (str_int h ++ "h " ++ str_int m ++ "m " ++ format_f 1 s ++ "s")%string.

End CelestialObjects.

(** ** voyager.py *)

Module VoyagerProbe.

Import PyFormat.

(** The attributes that [__init__] (lines 2-17) sets; 0.44704 is
    [2794 # 6250]. *)
Record probe : Type := {
  name : string;
  launch_date : Z;
  current_distance : Q;
  speed_mph : Q;
  speed_kms : Q
}.

Definition init (name : string) (launch_date : Z) (current_distance speed_mph : Q)
    : probe :=
  {| name := name;
     launch_date := launch_date;
     current_distance := current_distance;
     speed_mph := speed_mph;
     speed_kms := speed_mph * (2794 # 6250) / 1000 |}.

(** [calculate_light_time] (lines 53-64); 299_792.458 is
    [299792458 # 1000]. *)
Definition calculate_light_time (self : probe) : Q * Q :=
  let speed_of_light_kms := 299792458 # 1000 in
  let light_time_seconds := current_distance self / speed_of_light_kms in
  let light_time_hours := light_time_seconds / 3600 in
  let light_time_minutes := float_mod light_time_seconds 3600 / 60 in
  (light_time_hours, light_time_minutes).

(** What [main] prints of it (lines 89-90 and 100-101): [int(hours)] and
    [int(minutes)]. *)
Definition printed_light_time (self : probe) : Z * Z :=
  let '(hours, minutes) := calculate_light_time self in
  (int hours, int minutes).

End VoyagerProbe.

(** ** archive/voyager_from_kc-2.py *)

Module VoyagerArchive.

(** [check_visibility] (lines 98-116); 6.5 is [13 # 2]. *)
Definition check_visibility (alt mag sun_alt : Q) : bool * string :=
  if Qlt_bool alt 0 then (false, "Below horizon"%string)
  else if Qlt_bool (-6) sun_alt then (false, "Daylight or civil twilight"%string)
  else if Qlt_bool (13 # 2) mag then (false, "Too dim for naked eye"%string)
  else (true, "Theoretically visible"%string).

End VoyagerArchive.

Import Voyager.
Import Moon.

(** ** Vocabulary of the statements *)

(** [a0], [a1] are the altitudes and [t0], [t1] the timestamps of the
    consecutive samples [i-1] and [i] of the series. *)
Definition samples_at (times altitudes : list Q) (i : nat) (t0 t1 a0 a1 : Q) : Prop :=
  (1 <= i)%nat /\
  nth_error times (i - 1) = Some t0 /\ nth_error times i = Some t1 /\
  nth_error altitudes (i - 1) = Some a0 /\ nth_error altitudes i = Some a1.

(** The pair [(i-1, i)] goes from at or below the horizon to above it. *)
Definition rising_pair (altitudes : list Q) (i : nat) : Prop :=
  (1 <= i)%nat /\
  exists a0 a1, nth_error altitudes (i - 1) = Some a0 /\
                nth_error altitudes i = Some a1 /\ a0 <= 0 /\ 0 < a1.

(** The pair [(i-1, i)] goes from above the horizon to at or below it. *)
Definition setting_pair (altitudes : list Q) (i : nat) : Prop :=
  (1 <= i)%nat /\
  exists a0 a1, nth_error altitudes (i - 1) = Some a0 /\
                nth_error altitudes i = Some a1 /\ 0 < a0 /\ a1 <= 0.

(** [i] is the least index with property [P]. *)
Definition first_such (P : nat -> Prop) (i : nat) : Prop :=
  P i /\ forall j, (j < i)%nat -> ~ P j.

(** Sample [k] holds the greatest altitude, and no earlier sample does. *)
Definition first_maximum (altitudes : list Q) (k : nat) : Prop :=
  exists m, nth_error altitudes k = Some m /\
    (forall j a, nth_error altitudes j = Some a -> a <= m) /\
    (forall j a, (j < k)%nat -> nth_error altitudes j = Some a -> a < m).


(** The tests of the two loops as total boolean functions of the index, and
    the interpolated time as a total function (out-of-range reads as 0);
    they describe the loops on indices that are in range. *)
Definition rising_b (altitudes : list Q) (i : nat) : bool :=
  Qle_bool (nth (i - 1) altitudes 0) 0 && Qlt_bool 0 (nth i altitudes 0).

Definition setting_b (altitudes : list Q) (i : nat) : bool :=
  Qlt_bool 0 (nth (i - 1) altitudes 0) && Qle_bool (nth i altitudes 0) 0.

Definition crossing (times altitudes : list Q) (i : nat) : Q :=
  nth (i - 1) times 0
  + (nth i times 0 - nth (i - 1) times 0) * (0 - nth (i - 1) altitudes 0)
    / (nth i altitudes 0 - nth (i - 1) altitudes 0).

Definition first_crossing (p : nat -> bool) (times altitudes : list Q) : option Q :=
  option_map (crossing times altitudes) (find p (range 1 (length altitudes))).

(** Two optional instants that are both absent or denote the same rational
    number. *)
Definition same_time (x y : option Q) : Prop :=
  match x, y with
  | Some a, Some b => a == b
  | None, None => True
  | _, _ => False
  end.

(** An optional instant moved by [c] seconds. *)
Definition shifted (c : Q) (x : option Q) : option Q :=
  option_map (fun t => t + c) x.

(** ** Comparisons and indexing *)

Lemma Qlt_bool_iff (x y : Q) : Qlt_bool x y = true <-> x < y.
Proof. unfold Qlt_bool, Qlt. apply Z.ltb_lt. Qed.

Lemma Qlt_bool_false (x y : Q) : Qlt_bool x y = false <-> y <= x.
Proof.
  unfold Qlt_bool, Qle. rewrite Z.ltb_ge. reflexivity.
Qed.

Lemma Qle_bool_false (x y : Q) : Qle_bool x y = false <-> y < x.
Proof.
  split; intro H.
  - apply Qnot_le_lt. intro Hle. apply Qle_bool_iff in Hle. congruence.
  - destruct (Qle_bool x y) eqn:E; [|reflexivity].
    apply Qle_bool_iff in E. exfalso. apply (Qlt_not_le _ _ H E).
Qed.

Lemma getitem_Some {A : Type} (l : list A) (i : nat) (x : A) :
  nth_error l i = Some x -> getitem l i = Ok x.
Proof. unfold getitem. intros ->. reflexivity. Qed.

Lemma getitem_nth (l : list Q) (i : nat) :
  (i < length l)%nat -> getitem l i = Ok (nth i l 0).
Proof.
  intro H. apply getitem_Some. apply nth_error_nth'. exact H.
Qed.

Lemma nth_error_to_nth (l : list Q) (i : nat) (x : Q) :
  nth_error l i = Some x -> nth i l 0 = x /\ (i < length l)%nat.
Proof.
  intro H. split.
  - apply nth_error_nth. exact H.
  - apply nth_error_Some. congruence.
Qed.

(** ** The two loops *)

Lemma rising_in_range (altitudes : list Q) (i : nat) :
  (1 <= i < length altitudes)%nat ->
  rising altitudes i = Ok (rising_b altitudes i).
Proof.
  intros [H1 H2]. unfold rising, rising_b.
  rewrite (getitem_nth altitudes (i - 1)) by lia. cbn [bind].
  destruct (Qle_bool (nth (i - 1) altitudes 0) 0); [|reflexivity].
  rewrite (getitem_nth altitudes i) by lia. reflexivity.
Qed.

Lemma setting_in_range (altitudes : list Q) (i : nat) :
  (1 <= i < length altitudes)%nat ->
  setting altitudes i = Ok (setting_b altitudes i).
Proof.
  intros [H1 H2]. unfold setting, setting_b.
  rewrite (getitem_nth altitudes (i - 1)) by lia. cbn [bind].
  destruct (Qlt_bool 0 (nth (i - 1) altitudes 0)); [|reflexivity].
  rewrite (getitem_nth altitudes i) by lia. reflexivity.
Qed.

Lemma rising_b_true (altitudes : list Q) (i : nat) :
  rising_b altitudes i = true <->
  nth (i - 1) altitudes 0 <= 0 /\ 0 < nth i altitudes 0.
Proof.
  unfold rising_b. rewrite andb_true_iff, Qle_bool_iff, Qlt_bool_iff. reflexivity.
Qed.

Lemma setting_b_true (altitudes : list Q) (i : nat) :
  setting_b altitudes i = true <->
  0 < nth (i - 1) altitudes 0 /\ nth i altitudes 0 <= 0.
Proof.
  unfold setting_b. rewrite andb_true_iff, Qle_bool_iff, Qlt_bool_iff. reflexivity.
Qed.

Lemma rising_pair_b (altitudes : list Q) (i : nat) :
  rising_pair altitudes i <->
  (1 <= i < length altitudes)%nat /\ rising_b altitudes i = true.
Proof.
  rewrite rising_b_true. split.
  - intros (H1 & a0 & a1 & E0 & E1 & Ha0 & Ha1).
    apply nth_error_to_nth in E0, E1. destruct E0 as [-> _], E1 as [-> L].
    auto.
  - intros ((H1 & H2) & Ha0 & Ha1). split; [exact H1|].
    exists (nth (i - 1) altitudes 0), (nth i altitudes 0).
    repeat split; auto; apply nth_error_nth'; lia.
Qed.

Lemma setting_pair_b (altitudes : list Q) (i : nat) :
  setting_pair altitudes i <->
  (1 <= i < length altitudes)%nat /\ setting_b altitudes i = true.
Proof.
  rewrite setting_b_true. split.
  - intros (H1 & a0 & a1 & E0 & E1 & Ha0 & Ha1).
    apply nth_error_to_nth in E0, E1. destruct E0 as [-> _], E1 as [-> L].
    auto.
  - intros ((H1 & H2) & Ha0 & Ha1). split; [exact H1|].
    exists (nth (i - 1) altitudes 0), (nth i altitudes 0).
    repeat split; auto; apply nth_error_nth'; lia.
Qed.

(** The divisor of the interpolation is a strictly positive number in the
    rise branch and a strictly negative one in the set branch. *)
Lemma rise_branch_divisor (a0 a1 : Q) : a0 <= 0 -> 0 < a1 -> 0 < a1 - a0.
Proof. intros; lra. Qed.

Lemma set_branch_divisor (a0 a1 : Q) : 0 < a0 -> a1 <= 0 -> a1 - a0 < 0.
Proof. intros; lra. Qed.

Lemma truediv_nonzero (x y : Q) : ~ y == 0 -> truediv x y = Ok (x / y).
Proof.
  intro H. unfold truediv. destruct (Qeq_bool y 0) eqn:E; [|reflexivity].
  apply Qeq_bool_iff in E. contradiction.
Qed.

Lemma interpolate_in_range (times altitudes : list Q) (i : nat) :
  length times = length altitudes ->
  (1 <= i < length altitudes)%nat ->
  ~ nth i altitudes 0 - nth (i - 1) altitudes 0 == 0 ->
  interpolate times altitudes i = Ok (crossing times altitudes i).
Proof.
  intros L [H1 H2] Hd. unfold interpolate, crossing.
  rewrite (getitem_nth times i) by lia.
  rewrite (getitem_nth times (i - 1)) by lia.
  rewrite (getitem_nth altitudes i) by lia.
  rewrite (getitem_nth altitudes (i - 1)) by lia.
  cbn [bind]. rewrite truediv_nonzero by exact Hd. reflexivity.
Qed.

Lemma crossing_loop_find (test : list Q -> nat -> result bool) (p : nat -> bool)
    (times altitudes : list Q) (var : option Q) (idxs : list nat) :
  (forall i, In i idxs -> test altitudes i = Ok (p i)) ->
  (forall i, In i idxs -> p i = true ->
     interpolate times altitudes i = Ok (crossing times altitudes i)) ->
  crossing_loop test times altitudes idxs var =
  Ok (match find p idxs with
      | Some i => Some (crossing times altitudes i)
      | None => var
      end).
Proof.
  induction idxs as [|i rest IH]; intros Ht Hi; [reflexivity|].
  cbn [crossing_loop find]. rewrite (Ht i) by (left; reflexivity). cbn [bind].
  destruct (p i) eqn:E.
  - rewrite (Hi i) by (auto; left; reflexivity). reflexivity.
  - apply IH; intros; [apply Ht | apply Hi]; auto; right; assumption.
Qed.

Lemma in_range_iff (start stop i : nat) :
  In i (range start stop) <-> (start <= i < stop)%nat.
Proof. unfold range. rewrite in_seq. lia. Qed.

Lemma rise_loop_spec (times altitudes : list Q) :
  length times = length altitudes ->
  crossing_loop rising times altitudes (range 1 (length altitudes)) None =
  Ok (first_crossing (rising_b altitudes) times altitudes).
Proof.
  intro L. unfold first_crossing.
  rewrite (crossing_loop_find rising (rising_b altitudes)).
  - destruct (find _ _); reflexivity.
  - intros i Hi. apply in_range_iff in Hi. apply rising_in_range. exact Hi.
  - intros i Hi Hp. apply in_range_iff in Hi.
    apply interpolate_in_range; auto.
    apply rising_b_true in Hp. destruct Hp as [Ha Hb].
    pose proof (rise_branch_divisor _ _ Ha Hb). lra.
Qed.

Lemma set_loop_spec (times altitudes : list Q) :
  length times = length altitudes ->
  crossing_loop setting times altitudes (range 1 (length altitudes)) None =
  Ok (first_crossing (setting_b altitudes) times altitudes).
Proof.
  intro L. unfold first_crossing.
  rewrite (crossing_loop_find setting (setting_b altitudes)).
  - destruct (find _ _); reflexivity.
  - intros i Hi. apply in_range_iff in Hi. apply setting_in_range. exact Hi.
  - intros i Hi Hp. apply in_range_iff in Hi.
    apply interpolate_in_range; auto.
    apply setting_b_true in Hp. destruct Hp as [Ha Hb].
    pose proof (set_branch_divisor _ _ Ha Hb). lra.
Qed.

(** ** The first index of a range that passes a test *)

Lemma find_seq_Some (p : nat -> bool) (k start i : nat) :
  find p (seq start k) = Some i ->
  (start <= i < start + k)%nat /\ p i = true /\
  forall j, (start <= j < i)%nat -> p j = false.
Proof.
  revert start. induction k as [|k IH]; intros start H; [discriminate|].
  cbn [seq find] in H. destruct (p start) eqn:E.
  - injection H as <-. repeat split; try lia; auto.
  - apply IH in H. destruct H as (R & Hp & Hf). repeat split; try lia; auto.
    intros j Hj. destruct (Nat.eq_dec j start) as [->|N]; [exact E|].
    apply Hf; lia.
Qed.

Lemma find_seq_None (p : nat -> bool) (k start : nat) :
  find p (seq start k) = None ->
  forall j, (start <= j < start + k)%nat -> p j = false.
Proof.
  intros H j Hj. apply (find_none p _ H). apply in_seq. exact Hj.
Qed.

Lemma find_seq_first (p : nat -> bool) (k start i : nat) :
  (start <= i < start + k)%nat -> p i = true ->
  (forall j, (start <= j < i)%nat -> p j = false) ->
  find p (seq start k) = Some i.
Proof.
  intros R Hp Hf. destruct (find p (seq start k)) as [i'|] eqn:E.
  - apply find_seq_Some in E. destruct E as (R' & Hp' & Hf').
    destruct (Nat.lt_trichotomy i i') as [Lt|[->|Gt]]; [|reflexivity|].
    + rewrite Hf' in Hp by lia. discriminate.
    + rewrite Hf in Hp' by lia. discriminate.
  - rewrite (find_seq_None p k start E i R) in Hp. discriminate.
Qed.

Lemma first_rising_find (altitudes : list Q) (i : nat) :
  first_such (rising_pair altitudes) i <->
  find (rising_b altitudes) (range 1 (length altitudes)) = Some i.
Proof.
  unfold first_such, range. split.
  - intros [P F]. apply rising_pair_b in P. destruct P as [R Hp].
    apply find_seq_first; [lia | exact Hp |].
    intros j Hj. destruct (rising_b altitudes j) eqn:E; [|reflexivity].
    exfalso. apply (F j); [lia|]. apply rising_pair_b. split; [lia | exact E].
  - intro H. apply find_seq_Some in H. destruct H as (R & Hp & Hf). split.
    + apply rising_pair_b. split; [lia | exact Hp].
    + intros j Hj P. apply rising_pair_b in P. destruct P as [Rj Hpj].
      rewrite Hf in Hpj by lia. discriminate.
Qed.

Lemma first_setting_find (altitudes : list Q) (i : nat) :
  first_such (setting_pair altitudes) i <->
  find (setting_b altitudes) (range 1 (length altitudes)) = Some i.
Proof.
  unfold first_such, range. split.
  - intros [P F]. apply setting_pair_b in P. destruct P as [R Hp].
    apply find_seq_first; [lia | exact Hp |].
    intros j Hj. destruct (setting_b altitudes j) eqn:E; [|reflexivity].
    exfalso. apply (F j); [lia|]. apply setting_pair_b. split; [lia | exact E].
  - intro H. apply find_seq_Some in H. destruct H as (R & Hp & Hf). split.
    + apply setting_pair_b. split; [lia | exact Hp].
    + intros j Hj P. apply setting_pair_b in P. destruct P as [Rj Hpj].
      rewrite Hf in Hpj by lia. discriminate.
Qed.

Lemma no_rising_find (altitudes : list Q) :
  (forall i, ~ rising_pair altitudes i) <->
  find (rising_b altitudes) (range 1 (length altitudes)) = None.
Proof.
  split.
  - intro H. destruct (find _ _) as [i|] eqn:E; [|reflexivity].
    apply first_rising_find in E. destruct E as [P _]. destruct (H i P).
  - intros H i P. apply rising_pair_b in P. destruct P as [R Hp].
    unfold range in H. rewrite (find_seq_None _ _ _ H i) in Hp by lia.
    discriminate.
Qed.

Lemma no_setting_find (altitudes : list Q) :
  (forall i, ~ setting_pair altitudes i) <->
  find (setting_b altitudes) (range 1 (length altitudes)) = None.
Proof.
  split.
  - intro H. destruct (find _ _) as [i|] eqn:E; [|reflexivity].
    apply first_setting_find in E. destruct E as [P _]. destruct (H i P).
  - intros H i P. apply setting_pair_b in P. destruct P as [R Hp].
    unfold range in H. rewrite (find_seq_None _ _ _ H i) in Hp by lia.
    discriminate.
Qed.

(** ** [max] and [argmax] *)

Lemma max_loop_ge (l : list Q) (m : Q) : m <= max_loop m l.
Proof.
  revert m. induction l as [|x r IH]; intro m; cbn [max_loop]; [lra|].
  destruct (Qlt_bool m x) eqn:E.
  - apply Qlt_bool_iff in E. specialize (IH x). lra.
  - apply IH.
Qed.

Lemma max_loop_upper (l : list Q) (m x : Q) : In x l -> x <= max_loop m l.
Proof.
  revert m. induction l as [|y r IH]; intros m H; [destruct H|].
  cbn [max_loop]. destruct H as [->|H]; [|apply IH; exact H].
  destruct (Qlt_bool m x) eqn:E.
  - apply max_loop_ge.
  - apply Qlt_bool_false in E. pose proof (max_loop_ge r m). lra.
Qed.

Lemma max_loop_attained (l : list Q) (m : Q) :
  max_loop m l = m \/ In (max_loop m l) l.
Proof.
  revert m. induction l as [|y r IH]; intro m; cbn [max_loop]; [left; reflexivity|].
  destruct (Qlt_bool m y).
  - destruct (IH y) as [->|H]; right; [left; reflexivity | right; exact H].
  - destruct (IH m) as [->|H]; [left; reflexivity | right; right; exact H].
Qed.

Lemma max_spec (l : list Q) (m : Q) :
  Py.max l = Ok m -> In m l /\ forall x, In x l -> x <= m.
Proof.
  destruct l as [|x r]; [discriminate|]. cbn [Py.max]. intro H.
  injection H as <-. split.
  - destruct (max_loop_attained r x) as [->|H]; [left; reflexivity | right; exact H].
  - intros y [<-|H]; [apply max_loop_ge | apply max_loop_upper; exact H].
Qed.

Lemma max_nonempty (l : list Q) : l <> [] -> exists m, Py.max l = Ok m.
Proof.
  destruct l as [|x r]; [congruence|]. intros _. eexists; reflexivity.
Qed.

Lemma argmax_loop_spec (l : list Q) (best_idx : nat) (best : Q) (i : nat) :
  let k := argmax_loop best_idx best i l in
  (k = best_idx /\ forall y, In y l -> y <= best) \/
  (exists x, (i <= k)%nat /\ nth_error l (k - i) = Some x /\ best < x /\
     (forall y, In y l -> y <= x) /\
     (forall j y, (j < k - i)%nat -> nth_error l j = Some y -> y < x)).
Proof.
  revert best_idx best i. induction l as [|x r IH]; intros best_idx best i.
  - left. split; [reflexivity | intros y []].
  - cbn [argmax_loop]. destruct (Qlt_bool best x) eqn:E.
    + apply Qlt_bool_iff in E. right.
      destruct (IH i x (S i)) as [[-> Hall]|(x' & Hk & Hn & Hb & Hall & Hbefore)].
      * exists x. rewrite Nat.sub_diag. repeat split; auto.
        -- intros y [<-|H]; [lra | apply Hall; exact H].
        -- intros j y Hj; lia.
      * exists x'. set (k := argmax_loop i x (S i) r) in *.
        replace (k - i)%nat with (S (k - S i)) by lia.
        repeat split; auto; try lia; try lra.
        -- intros y [<-|H]; [lra | apply Hall; exact H].
        -- intros [|j] y Hj Hy; cbn in Hy.
           ++ injection Hy as <-. exact Hb.
           ++ apply (Hbefore j); [lia | exact Hy].
    + apply Qlt_bool_false in E.
      destruct (IH best_idx best (S i)) as [[-> Hall]|(x' & Hk & Hn & Hb & Hall & Hbefore)].
      * left. split; [reflexivity|]. intros y [<-|H]; [exact E | apply Hall; exact H].
      * right. exists x'. set (k := argmax_loop best_idx best (S i) r) in *.
        replace (k - i)%nat with (S (k - S i)) by lia.
        repeat split; auto; try lia.
        -- intros y [<-|H]; [lra | apply Hall; exact H].
        -- intros [|j] y Hj Hy; cbn in Hy.
           ++ injection Hy as <-. lra.
           ++ apply (Hbefore j); [lia | exact Hy].
Qed.

Lemma argmax_spec (l : list Q) :
  l <> [] -> exists k, argmax l = Ok k /\ first_maximum l k.
Proof.
  destruct l as [|x r]; [congruence|]. intros _.
  exists (argmax_loop 0 x 1 r). split; [reflexivity|].
  destruct (argmax_loop_spec r 0%nat x 1%nat) as [[E Hall]|(x' & Hk & Hn & Hb & Hall & Hbefore)].
  - rewrite E. exists x. split; [reflexivity|]. split.
    + intros [|j] a Ha; cbn in Ha; [injection Ha as <-; lra|].
      apply Hall. apply nth_error_In with j. exact Ha.
    + intros j a Hj; lia.
  - set (k := argmax_loop 0 x 1 r) in *. exists x'. split; [|split].
    + replace k with (S (k - 1)) by lia. exact Hn.
    + intros [|j] a Ha; cbn in Ha; [injection Ha as <-; lra|].
      apply Hall. apply nth_error_In with j. exact Ha.
    + intros [|j] a Hj Ha; cbn in Ha; [injection Ha as <-; exact Hb|].
      apply (Hbefore j); [lia | exact Ha].
Qed.

(** ** The detector as a whole *)

Lemma detector_empty (times : list Q) :
  find_rise_transit_set times [] = Raise ValueError.
Proof. reflexivity. Qed.

Lemma detector_below (times altitudes : list Q) (m : Q) :
  Py.max altitudes = Ok m -> m <= 0 ->
  find_rise_transit_set times altitudes = Ok (None, None, None).
Proof.
  intros Hm Hle. unfold find_rise_transit_set. rewrite Hm. cbn [bind].
  apply Qle_bool_iff in Hle. rewrite Hle. reflexivity.
Qed.

Lemma detector_above (times altitudes : list Q) (m : Q) :
  length times = length altitudes ->
  Py.max altitudes = Ok m -> 0 < m ->
  exists k t, first_maximum altitudes k /\ nth_error times k = Some t /\
    find_rise_transit_set times altitudes =
    Ok (first_crossing (rising_b altitudes) times altitudes,
        Some t,
        first_crossing (setting_b altitudes) times altitudes).
Proof.
  intros L Hm Hpos.
  assert (Hne : altitudes <> []) by (intros ->; discriminate).
  destruct (argmax_spec altitudes Hne) as (k & Hk & Hfm).
  assert (Hlt : (k < length times)%nat).
  { destruct Hfm as (x & Hx & _). rewrite L. apply nth_error_Some. congruence. }
  destruct (nth_error times k) as [t|] eqn:Ht;
    [|apply nth_error_None in Ht; lia].
  exists k, t. repeat split; auto.
  unfold find_rise_transit_set. rewrite Hm. cbn [bind].
  apply Qle_bool_false in Hpos as Hb. rewrite Hb.
  rewrite (rise_loop_spec _ _ L). cbn [bind].
  apply Qlt_bool_iff in Hpos as Hb'. rewrite Hb'.
  rewrite Hk. cbn [bind]. rewrite (getitem_Some _ _ _ Ht). cbn [bind].
  rewrite (set_loop_spec _ _ L). reflexivity.
Qed.

Lemma below_no_rising (altitudes : list Q) :
  (forall a, In a altitudes -> a <= 0) -> forall i, ~ rising_pair altitudes i.
Proof.
  intros H i (_ & a0 & a1 & _ & E1 & _ & Hpos).
  apply nth_error_In in E1. specialize (H a1 E1). lra.
Qed.

Lemma below_no_setting (altitudes : list Q) :
  (forall a, In a altitudes -> a <= 0) -> forall i, ~ setting_pair altitudes i.
Proof.
  intros H i (_ & a0 & a1 & E0 & _ & Hpos & _).
  apply nth_error_In in E0. specialize (H a0 E0). lra.
Qed.

(** On a non-empty series of samples the detector returns, and each of the
    three results is described on its own. *)
Lemma detector_spec (times altitudes : list Q) :
  length times = length altitudes -> altitudes <> [] ->
  exists ev, find_rise_transit_set times altitudes = Ok ev /\
    rise_of ev = first_crossing (rising_b altitudes) times altitudes /\
    set_of ev = first_crossing (setting_b altitudes) times altitudes /\
    ((transit_of ev = None /\ forall a, In a altitudes -> a <= 0) \/
     (exists k t a, first_maximum altitudes k /\ nth_error times k = Some t /\
        transit_of ev = Some t /\ In a altitudes /\ 0 < a)).
Proof.
  intros L Hne. destruct (max_nonempty altitudes Hne) as [m Hm].
  destruct (max_spec altitudes m Hm) as [Hin Hub].
  destruct (Qlt_le_dec 0 m) as [Hpos|Hle].
  - destruct (detector_above times altitudes m L Hm Hpos) as (k & t & Hfm & Ht & E).
    eexists. split; [exact E|]. cbn. repeat split.
    right. exists k, t, m. auto.
  - exists (None, None, None). split; [apply (detector_below _ _ m Hm Hle)|].
    assert (Hall : forall a, In a altitudes -> a <= 0).
    { intros a Ha. specialize (Hub a Ha). lra. }
    cbn. unfold first_crossing.
    rewrite (proj1 (no_rising_find altitudes) (below_no_rising _ Hall)).
    rewrite (proj1 (no_setting_find altitudes) (below_no_setting _ Hall)).
    repeat split. left. split; [reflexivity | exact Hall].
Qed.

Lemma crossing_at (times altitudes : list Q) (i : nat) (t0 t1 a0 a1 : Q) :
  samples_at times altitudes i t0 t1 a0 a1 ->
  crossing times altitudes i = t0 + (t1 - t0) * (0 - a0) / (a1 - a0).
Proof.
  intros (_ & T0 & T1 & A0 & A1). unfold crossing.
  apply nth_error_to_nth in T0, T1, A0, A1.
  destruct T0 as [-> _], T1 as [-> _], A0 as [-> _], A1 as [-> _]. reflexivity.
Qed.

(** ** Where the interpolated instant lies *)






(** ** A series that starts above the horizon *)





(** ** The claims about the detector *)

(** The worked example of the specification: altitudes
    [-10, -2, 5, 20, 30, 10, -5] at one-hour steps. *)
Example single_rise_set_pair :
  find_rise_transit_set [0; 3600; 7200; 10800; 14400; 18000; 21600]
                        [-10; -2; 5; 20; 30; 10; -5]
  = Ok (Some (3600 + (7200 - 3600) * (0 - -2) / (5 - -2)),
        Some 14400,
        Some (18000 + (21600 - 18000) * (0 - 10) / (-5 - 10))).
Proof. reflexivity. Qed.

(** C1.  On a series of at least two samples the detector returns, and its
    rise event is fixed by the first consecutive pair [(i-1, i)] with
    [altitude[i-1] <= 0] and [altitude[i] > 0]: the rise time is
    [t[i-1] + (t[i] - t[i-1]) * (0 - altitude[i-1]) / (altitude[i] - altitude[i-1])]
    for that earliest pair and no other, and it is [None] when the series
    has no such pair. *)
Theorem C1_rise_is_first_rising_pair (times altitudes : list Q) :
  length times = length altitudes -> (2 <= length altitudes)%nat ->
  exists ev, find_rise_transit_set times altitudes = Ok ev /\
    (forall i t0 t1 a0 a1,
       samples_at times altitudes i t0 t1 a0 a1 ->
       a0 <= 0 -> 0 < a1 ->
       (forall j, (j < i)%nat -> ~ rising_pair altitudes j) ->
       rise_of ev = Some (t0 + (t1 - t0) * (0 - a0) / (a1 - a0))) /\
    ((forall i, ~ rising_pair altitudes i) -> rise_of ev = None) /\
    (forall t, rise_of ev = Some t ->
       exists i t0 t1 a0 a1,
         samples_at times altitudes i t0 t1 a0 a1 /\
         first_such (rising_pair altitudes) i /\
         t = t0 + (t1 - t0) * (0 - a0) / (a1 - a0)).
Proof.
  intros L Hlen.
  assert (Hne : altitudes <> []) by (intros ->; cbn in Hlen; lia).
  destruct (detector_spec times altitudes L Hne) as (ev & E & Hr & _ & _).
  exists ev. split; [exact E|]. rewrite Hr. unfold first_crossing.
  split; [|split].
  - intros i t0 t1 a0 a1 S Ha0 Ha1 Hfirst.
    assert (F : first_such (rising_pair altitudes) i).
    { split; [|exact Hfirst]. destruct S as (H1 & _ & _ & A0 & A1).
      split; [exact H1|]. exists a0, a1. auto. }
    apply first_rising_find in F. rewrite F. cbn [option_map].
    rewrite (crossing_at _ _ _ _ _ _ _ S). reflexivity.
  - intro Hno. apply no_rising_find in Hno. rewrite Hno. reflexivity.
  - intros t Ht.
    destruct (find (rising_b altitudes) (range 1 (length altitudes))) as [i|] eqn:F;
      [|discriminate].
    cbn [option_map] in Ht. injection Ht as <-.
    apply first_rising_find in F. pose proof F as [P _].
    apply rising_pair_b in P. destruct P as [R _].
    assert (S : samples_at times altitudes i
                  (nth (i - 1) times 0) (nth i times 0)
                  (nth (i - 1) altitudes 0) (nth i altitudes 0)).
    { split; [lia|]. repeat split; apply nth_error_nth'; lia. }
    do 5 eexists. split; [exact S|]. split; [exact F|].
    apply crossing_at. exact S.
Qed.

Lemma C1_rise_is_first_rising_pair_witness :
  exists ev, find_rise_transit_set [0; 60; 120] [-2; 5; -1] = Ok ev /\
    rise_of ev = Some (0 + (60 - 0) * (0 - -2) / (5 - -2)).
Proof.
  destruct (C1_rise_is_first_rising_pair [0; 60; 120] [-2; 5; -1])
    as (ev & E & H & _ & _); [reflexivity | cbn; lia |].
  exists ev. split; [exact E|].
  apply (H 1%nat).
  - split; [lia|]. repeat split; reflexivity.
  - discriminate.
  - reflexivity.
  - intros j Hj [H1 _]. lia.
Defined.





(** C3.  When some altitude of the series is strictly positive, the transit
    time is the timestamp of the sample that holds the greatest altitude,
    as it is (no interpolation between samples), and among several samples
    with the greatest altitude the one of lowest index is taken. *)
Theorem C3_transit_at_first_maximum (times altitudes : list Q) :
  length times = length altitudes ->
  (exists a, In a altitudes /\ 0 < a) ->
  exists ev k t, find_rise_transit_set times altitudes = Ok ev /\
    first_maximum altitudes k /\
    nth_error times k = Some t /\
    transit_of ev = Some t.
Proof.
  intros L (a & Ha & Hpos).
  assert (Hne : altitudes <> []) by (intros ->; destruct Ha).
  destruct (detector_spec times altitudes L Hne)
    as (ev & E & _ & _ & [[_ Hall]|(k & t & _ & Hfm & Ht & Htr & _)]).
  - specialize (Hall a Ha). lra.
  - exists ev, k, t. auto.
Qed.

Lemma C3_transit_at_first_maximum_witness :
  exists ev k, find_rise_transit_set [0; 60; 120; 180] [-1; 7; 7; 2] = Ok ev /\
    first_maximum [-1; 7; 7; 2] k /\ transit_of ev = nth_error [0; 60; 120; 180] k.
Proof.
  destruct (C3_transit_at_first_maximum [0; 60; 120; 180] [-1; 7; 7; 2])
    as (ev & k & t & E & Hfm & Ht & Htr).
  - reflexivity.
  - exists 7. split; [right; left; reflexivity | reflexivity].
  - exists ev, k. rewrite Ht. auto.
Defined.

(** The tie of the example above is broken towards the earlier sample. *)
Example transit_tie_takes_first :
  find_rise_transit_set [0; 60; 120; 180] [-1; 7; 7; 2]
  = Ok (Some (0 + (60 - 0) * (0 - -1) / (7 - -1)), Some 60, None).
Proof. reflexivity. Qed.

(** C4.  When the greatest altitude of the series is [<= 0] (every sample is
    at or below the horizon), the detector returns [(None, None, None)]
    from its first test: whatever [times] is, not one timestamp is read,
    and no search is run. *)
Theorem C4_all_below_returns_nothing (times altitudes : list Q) :
  (forall m, Py.max altitudes = Ok m -> m <= 0 ->
     find_rise_transit_set times altitudes = Ok (None, None, None)) /\
  (altitudes <> [] -> (forall a, In a altitudes -> a <= 0) ->
     find_rise_transit_set times altitudes = Ok (None, None, None)).
Proof.
  split.
  - intros m Hm Hle. exact (detector_below times altitudes m Hm Hle).
  - intros Hne Hall. destruct (max_nonempty altitudes Hne) as [m Hm].
    apply (detector_below times altitudes m Hm).
    apply Hall. apply (max_spec altitudes m Hm).
Qed.

Lemma C4_all_below_returns_nothing_witness :
  find_rise_transit_set [0; 60; 120] [-3; 0; -8] = Ok (None, None, None) /\
  find_rise_transit_set [] [-3; 0; -8] = Ok (None, None, None).
Proof.
  split.
  - apply (proj1 (C4_all_below_returns_nothing [0; 60; 120] [-3; 0; -8]) 0).
    + reflexivity.
    + discriminate.
  - apply (proj2 (C4_all_below_returns_nothing [] [-3; 0; -8])).
    + discriminate.
    + intros a [<-|[<-|[<-|[]]]]; discriminate.
Defined.

(** ** Which exceptions the detector can raise *)

Lemma getitem_inv {A : Type} (l : list A) (i : nat) (r : result A) :
  getitem l i = r ->
  (exists x, nth_error l i = Some x /\ r = Ok x) \/
  (nth_error l i = None /\ r = Raise IndexError).
Proof.
  unfold getitem. intros <-. destruct (nth_error l i) as [x|].
  - left. exists x. auto.
  - right. auto.
Qed.

Ltac step_getitem :=
  match goal with
  | H : context [getitem ?l ?i] |- _ =>
      let x := fresh "x" in
      let E := fresh "E" in
      let R := fresh "R" in
      destruct (getitem_inv l i _ eq_refl) as [(x & E & R)|(E & R)];
      rewrite R in H; clear R; cbn [bind] in H; try discriminate
  end.

Lemma rising_true_inv (altitudes : list Q) (i : nat) :
  rising altitudes i = Ok true ->
  exists a0 a1, nth_error altitudes (i - 1) = Some a0 /\
                nth_error altitudes i = Some a1 /\ a0 <= 0 /\ 0 < a1.
Proof.
  unfold rising. intro H. step_getitem.
  destruct (Qle_bool x 0) eqn:C0; [|discriminate].
  step_getitem. injection H as C1.
  apply Qle_bool_iff in C0. apply Qlt_bool_iff in C1.
  exists x, x0. auto.
Qed.

Lemma setting_true_inv (altitudes : list Q) (i : nat) :
  setting altitudes i = Ok true ->
  exists a0 a1, nth_error altitudes (i - 1) = Some a0 /\
                nth_error altitudes i = Some a1 /\ 0 < a0 /\ a1 <= 0.
Proof.
  unfold setting. intro H. step_getitem.
  destruct (Qlt_bool 0 x) eqn:C0; [|discriminate].
  step_getitem. injection H as C1.
  apply Qlt_bool_iff in C0. apply Qle_bool_iff in C1.
  exists x, x0. auto.
Qed.

Lemma rising_raises (altitudes : list Q) (i : nat) (e : exn) :
  rising altitudes i = Raise e -> e = IndexError.
Proof.
  unfold rising. intro H. step_getitem; [|congruence].
  destruct (Qle_bool x 0); [|discriminate].
  step_getitem. congruence.
Qed.

Lemma setting_raises (altitudes : list Q) (i : nat) (e : exn) :
  setting altitudes i = Raise e -> e = IndexError.
Proof.
  unfold setting. intro H. step_getitem; [|congruence].
  destruct (Qlt_bool 0 x); [|discriminate].
  step_getitem. congruence.
Qed.

Lemma interpolate_raises (times altitudes : list Q) (i : nat) (e : exn) :
  interpolate times altitudes i = Raise e ->
  e = IndexError \/
  (e = ZeroDivisionError /\
   exists a0 a1, nth_error altitudes (i - 1) = Some a0 /\
                 nth_error altitudes i = Some a1 /\ a1 - a0 == 0).
Proof.
  unfold interpolate. intro H.
  step_getitem; [|left; congruence].
  step_getitem; [|left; congruence].
  step_getitem; [|left; congruence].
  step_getitem; [|left; congruence].
  unfold truediv in H. destruct (Qeq_bool (x1 - x2) 0) eqn:D; cbn [bind] in H.
  - right. split; [congruence|]. apply Qeq_bool_iff in D. exists x2, x1. auto.
  - discriminate.
Qed.

Lemma crossing_loop_no_zero_division (test : list Q -> nat -> result bool)
    (times altitudes : list Q) (var : option Q) (idxs : list nat) :
  (forall i e, test altitudes i = Raise e -> e = IndexError) ->
  (forall i, test altitudes i = Ok true ->
     exists a0 a1, nth_error altitudes (i - 1) = Some a0 /\
                   nth_error altitudes i = Some a1 /\ ~ a1 - a0 == 0) ->
  crossing_loop test times altitudes idxs var <> Raise ZeroDivisionError.
Proof.
  intros Hraise Htrue. induction idxs as [|i rest IH]; [discriminate|].
  cbn [crossing_loop]. destruct (test altitudes i) as [[|]|e] eqn:T; cbn [bind].
  - destruct (interpolate times altitudes i) as [t|e] eqn:I; [discriminate|].
    cbn [bind]. intro H. injection H as ->.
    apply interpolate_raises in I. destruct I as [I|(_ & a0 & a1 & E0 & E1 & Z)];
      [discriminate|].
    destruct (Htrue i T) as (b0 & b1 & F0 & F1 & NZ).
    rewrite E0 in F0. rewrite E1 in F1.
    injection F0 as <-. injection F1 as <-. contradiction.
  - exact IH.
  - intro H. injection H as ->. apply Hraise in T. discriminate.
Qed.

Lemma detector_no_zero_division (times altitudes : list Q) :
  find_rise_transit_set times altitudes <> Raise ZeroDivisionError.
Proof.
  unfold find_rise_transit_set.
  destruct altitudes as [|a rest] eqn:Ealt; [discriminate|].
  rewrite <- Ealt. replace (Py.max altitudes) with (Ok (max_loop a rest))
    by (rewrite Ealt; reflexivity).
  cbn [bind]. destruct (Qle_bool (max_loop a rest) 0); [discriminate|].
  destruct (crossing_loop rising _ _ _ _) as [r|e] eqn:R; cbn [bind].
  2:{ intro H. injection H as ->. revert R.
      apply crossing_loop_no_zero_division; [apply rising_raises|].
      intros i T. apply rising_true_inv in T.
      destruct T as (a0 & a1 & E0 & E1 & H0 & H1).
      exists a0, a1. repeat split; auto.
      pose proof (rise_branch_divisor a0 a1 H0 H1). lra. }
  destruct (Qlt_bool 0 (max_loop a rest)); cbn [bind].
  - replace (argmax altitudes) with (Ok (argmax_loop 0 a 1 rest))
      by (rewrite Ealt; reflexivity).
    cbn [bind]. destruct (getitem times _) as [t|e] eqn:G; cbn [bind].
    2:{ apply getitem_inv in G. destruct G as [(x & _ & G)|(_ & G)]; congruence. }
    destruct (crossing_loop setting _ _ _ _) as [s|e] eqn:S; cbn [bind];
      [discriminate|].
    intro H. injection H as ->. revert S.
    apply crossing_loop_no_zero_division; [apply setting_raises|].
    intros i T. apply setting_true_inv in T.
    destruct T as (a0 & a1 & E0 & E1 & H0 & H1).
    exists a0, a1. repeat split; auto.
    pose proof (set_branch_divisor a0 a1 H0 H1). lra.
  - destruct (crossing_loop setting _ _ _ _) as [s|e] eqn:S; cbn [bind];
      [discriminate|].
    intro H. injection H as ->. revert S.
    apply crossing_loop_no_zero_division; [apply setting_raises|].
    intros i T. apply setting_true_inv in T.
    destruct T as (a0 & a1 & E0 & E1 & H0 & H1).
    exists a0, a1. repeat split; auto.
    pose proof (set_branch_divisor a0 a1 H0 H1). lra.
Qed.

(** C5.  When the test of the rise branch or of the set branch passes, the
    two altitudes of the pair differ, so the divisor of the interpolation is
    not zero and the detector never raises [ZeroDivisionError].  An altitude
    of exactly zero is at or below the horizon for both tests: as the later
    sample of a pair it never makes a rise, as the earlier sample it never
    makes a set, while zero followed by a positive altitude is a rise and a
    positive altitude followed by zero is a set. *)
Theorem C5_division_is_safe :
  (forall altitudes i, rising altitudes i = Ok true ->
     exists a0 a1, nth_error altitudes (i - 1) = Some a0 /\
       nth_error altitudes i = Some a1 /\
       a0 <= 0 /\ 0 < a1 /\ ~ a1 == a0 /\ ~ a1 - a0 == 0) /\
  (forall altitudes i, setting altitudes i = Ok true ->
     exists a0 a1, nth_error altitudes (i - 1) = Some a0 /\
       nth_error altitudes i = Some a1 /\
       0 < a0 /\ a1 <= 0 /\ ~ a1 == a0 /\ ~ a1 - a0 == 0) /\
  (forall times altitudes,
     find_rise_transit_set times altitudes <> Raise ZeroDivisionError) /\
  (forall altitudes i z, nth_error altitudes i = Some z -> z == 0 ->
     rising altitudes i <> Ok true /\
     setting altitudes (S i) <> Ok true /\
     (forall b, nth_error altitudes (S i) = Some b -> 0 < b ->
        rising altitudes (S i) = Ok true) /\
     (forall b, (1 <= i)%nat -> nth_error altitudes (i - 1) = Some b -> 0 < b ->
        setting altitudes i = Ok true)).
Proof.
  split; [|split; [|split]].
  - intros altitudes i T. apply rising_true_inv in T.
    destruct T as (a0 & a1 & E0 & E1 & H0 & H1).
    exists a0, a1. repeat split; auto; lra.
  - intros altitudes i T. apply setting_true_inv in T.
    destruct T as (a0 & a1 & E0 & E1 & H0 & H1).
    exists a0, a1. repeat split; auto; lra.
  - exact detector_no_zero_division.
  - intros altitudes i z Ez Hz. split; [|split; [|split]].
    + intro T. apply rising_true_inv in T.
      destruct T as (a0 & a1 & _ & E1 & _ & H1).
      rewrite Ez in E1. injection E1 as <-. lra.
    + intro T. apply setting_true_inv in T.
      destruct T as (a0 & a1 & E0 & _ & H0 & _).
      replace (S i - 1)%nat with i in E0 by lia.
      rewrite Ez in E0. injection E0 as <-. lra.
    + intros b Eb Hb. unfold rising.
      replace (S i - 1)%nat with i by lia.
      rewrite (getitem_Some _ _ _ Ez). cbn [bind].
      assert (C : Qle_bool z 0 = true) by (apply Qle_bool_iff; lra).
      rewrite C, (getitem_Some _ _ _ Eb). cbn [bind].
      apply Qlt_bool_iff in Hb. rewrite Hb. reflexivity.
    + intros b Hi Eb Hb. unfold setting.
      rewrite (getitem_Some _ _ _ Eb). cbn [bind].
      apply Qlt_bool_iff in Hb. rewrite Hb.
      rewrite (getitem_Some _ _ _ Ez). cbn [bind].
      assert (C : Qle_bool z 0 = true) by (apply Qle_bool_iff; lra).
      rewrite C. reflexivity.
Qed.

Lemma C5_division_is_safe_witness :
  (exists a0 a1, nth_error [0; 4] 0 = Some a0 /\ nth_error [0; 4] 1 = Some a1 /\
     ~ a1 - a0 == 0) /\
  rising [4; 0] 1 <> Ok true /\
  setting [4; 0] 1 = Ok true.
Proof.
  destruct C5_division_is_safe as (Hrise & _ & _ & Hzero). split; [|split].
  - destruct (Hrise [0; 4] 1%nat eq_refl) as (a0 & a1 & E0 & E1 & _ & _ & _ & NZ).
    exists a0, a1. auto.
  - destruct (Hzero [4; 0] 1%nat 0 eq_refl (Qeq_refl 0)) as (Z & _). exact Z.
  - destruct (Hzero [4; 0] 1%nat 0 eq_refl (Qeq_refl 0)) as (_ & _ & _ & Z).
    apply (Z 4); [lia | reflexivity | reflexivity].
Defined.

(** The horizon-touching series [5, 0, 5]: zero ends the set pair and
    starts the rise pair, and both events fall on the middle sample. *)
Example touching_the_horizon :
  find_rise_transit_set [0; 60; 120] [5; 0; 5]
  = Ok (Some (60 + (120 - 60) * (0 - 0) / (5 - 0)),
        Some 0,
        Some (0 + (60 - 0) * (0 - 5) / (0 - 5))).
Proof. reflexivity. Qed.

(** C6, as stated, fails: a series of one sample is shorter than two, and
    the detector returns a result for it. *)
Lemma C6_single_sample_returns :
  (length [5] < 2)%nat /\ length [0] = length [5] /\
  find_rise_transit_set [0] [5] = Ok (None, Some 0, None) /\
  ~ (exists e, find_rise_transit_set [0] [5] = Raise e).
Proof.
  repeat split; [cbn; lia|]. intros [e H]. discriminate H.
Qed.

(** C6, amended.  There is no validation of the input.  On the empty series
    the detector raises [ValueError] (from [max] of an empty sequence, no
    index is out of bounds).  On a series of one sample [(t, a)] it returns:
    [(None, None, None)] when [a <= 0], and [(None, t, None)] when [a > 0],
    both loops running over the empty [range(1, 1)]. *)
Theorem C6_fewer_than_two_samples (times altitudes : list Q) :
  length times = length altitudes -> (length altitudes < 2)%nat ->
  (altitudes = [] /\ find_rise_transit_set times altitudes = Raise ValueError) \/
  (exists t a, times = [t] /\ altitudes = [a] /\
     (a <= 0 -> find_rise_transit_set times altitudes = Ok (None, None, None)) /\
     (0 < a -> find_rise_transit_set times altitudes = Ok (None, Some t, None))).
Proof.
  intros L Hlen. destruct altitudes as [|a [|a' rest]]; [| |cbn in Hlen; lia].
  - left. split; reflexivity.
  - right. destruct times as [|t [|t' trest]]; try discriminate L.
    exists t, a. repeat split.
    + intro Ha. apply (detector_below [t] [a] a eq_refl Ha).
    + intro Ha. unfold find_rise_transit_set. cbn [Py.max max_loop bind].
      apply Qle_bool_false in Ha as C. rewrite C.
      apply Qlt_bool_iff in Ha. rewrite Ha. reflexivity.
Qed.

Lemma C6_fewer_than_two_samples_witness :
  find_rise_transit_set [] [] = Raise ValueError \/
  find_rise_transit_set [] [] = Ok (None, None, None).
Proof.
  destruct (C6_fewer_than_two_samples [] []) as [[_ H]|(t & a & _ & E & _)].
  - reflexivity.
  - cbn; lia.
  - left. exact H.
  - discriminate E.
Defined.

(** C7, as stated, fails: the series [5, 10, -1, 3] starts above the
    horizon, has its maximum at index 1 with no rising pair up to there,
    and the rise scan, which runs over the whole series, reports the pair
    [(2, 3)]. *)
Lemma C7_rise_after_the_maximum :
  (exists first, nth_error [5; 10; -1; 3] 0 = Some first /\ 0 < first) /\
  first_maximum [5; 10; -1; 3] 1 /\
  (forall i, (i <= 1)%nat -> ~ rising_pair [5; 10; -1; 3] i) /\
  find_rise_transit_set [0; 60; 120; 180] [5; 10; -1; 3]
  = Ok (Some (120 + (180 - 120) * (0 - -1) / (3 - -1)),
        Some 60,
        Some (60 + (120 - 60) * (0 - 10) / (-1 - 10))).
Proof.
  split; [|split; [|split]].
  - exists 5. split; reflexivity.
  - exists 10. split; [reflexivity|]. split.
    + intros [|[|[|[|j]]]] a Ha; cbn in Ha; try (injection Ha as <-; discriminate).
      destruct j; discriminate Ha.
    + intros [|j] a Hj Ha; [|lia]. cbn in Ha. injection Ha as <-. reflexivity.
  - intros i Hi (H1 & a0 & a1 & E0 & E1 & H0 & _).
    assert (i = 1%nat) by lia. subst i. cbn in E0. injection E0 as <-.
    apply (Qlt_not_le 0 5); [reflexivity | exact H0].
  - reflexivity.
Qed.

(** C7, amended.  On a non-empty series each event is absent exactly when
    what it needs is missing from the whole series: rise when no pair goes
    from [<= 0] to [> 0], transit when no altitude is [> 0], set when no pair
    goes from [> 0] to [<= 0].  So a series that starts above the horizon and
    has no rising pair anywhere gets no rise, while its transit is returned,
    and its set too whenever it has a setting pair. *)
Theorem C7_each_event_on_its_own (times altitudes : list Q) :
  length times = length altitudes -> altitudes <> [] ->
  exists ev, find_rise_transit_set times altitudes = Ok ev /\
    (rise_of ev = None <-> forall i, ~ rising_pair altitudes i) /\
    (transit_of ev = None <-> forall a, In a altitudes -> a <= 0) /\
    (set_of ev = None <-> forall i, ~ setting_pair altitudes i) /\
    (forall first, nth_error altitudes 0 = Some first -> 0 < first ->
       (forall i, ~ rising_pair altitudes i) ->
       rise_of ev = None /\ transit_of ev <> None /\
       ((exists i, setting_pair altitudes i) -> set_of ev <> None)).
Proof.
  intros L Hne.
  destruct (detector_spec times altitudes L Hne) as (ev & E & Hr & Hs & Ht).
  assert (R : rise_of ev = None <-> forall i, ~ rising_pair altitudes i).
  { rewrite Hr, no_rising_find. unfold first_crossing.
    destruct (find _ _); cbn; split; congruence. }
  assert (S : set_of ev = None <-> forall i, ~ setting_pair altitudes i).
  { rewrite Hs, no_setting_find. unfold first_crossing.
    destruct (find _ _); cbn; split; congruence. }
  assert (T : transit_of ev = None <-> forall a, In a altitudes -> a <= 0).
  { destruct Ht as [[Hn Hall]|(k & t & a & _ & _ & Htr & Ha & Hpos)].
    - split; auto.
    - rewrite Htr. split; [discriminate|].
      intro Hall. specialize (Hall a Ha). lra. }
  exists ev. repeat split; try apply R; try apply S; try apply T; auto.
  - intro Hn. apply nth_error_In in H. pose proof (proj1 T Hn first H). lra.
  - intros [i Hi] Hn. exact (proj1 S Hn i Hi).
Qed.

Lemma C7_each_event_on_its_own_witness :
  exists ev, find_rise_transit_set [0; 60; 120] [5; 10; -1] = Ok ev /\
    rise_of ev = None /\ transit_of ev <> None /\ set_of ev <> None.
Proof.
  destruct (C7_each_event_on_its_own [0; 60; 120] [5; 10; -1])
    as (ev & E & R & _ & _ & H); [reflexivity | discriminate |].
  exists ev. split; [exact E|].
  assert (N : forall i, ~ rising_pair [5; 10; -1] i).
  { apply (proj1 R). vm_compute in E. injection E as <-. reflexivity. }
  destruct (H 5 eq_refl eq_refl N) as (H1 & H2 & H3).
  repeat split; auto. apply H3. exists 2%nat. split; [lia|].
  exists 10, (-1). repeat split; discriminate.
Defined.

(** ** The compass helper *)


(** [round] returns an integer nearest to its argument. *)
Lemma round_nearest (x : Q) :
  inject_Z (Py.round x) - (1 # 2) <= x /\ x <= inject_Z (Py.round x) + (1 # 2).
Proof.
  unfold Py.round. pose proof (Qfloor_le x) as Hlo. pose proof (Qlt_floor x) as Hhi.
  rewrite inject_Z_plus in Hhi. change (inject_Z 1) with 1 in Hhi.
  set (f := Qfloor x) in *.
  destruct (Qcompare (x - inject_Z f) (1 # 2)) eqn:C.
  - apply Qeq_alt in C. destruct (Z.even f).
    + split; lra.
    + rewrite inject_Z_plus. change (inject_Z 1) with 1. split; lra.
  - apply Qlt_alt in C. split; lra.
  - apply Qgt_alt in C. rewrite inject_Z_plus. change (inject_Z 1) with 1.
    split; lra.
Qed.

(** A tie goes to the even neighbour. *)
Lemma round_half_even (n : Z) :
  Py.round (inject_Z n + (1 # 2)) = if Z.even n then n else (n + 1)%Z.
Proof.
  assert (F : Qfloor (inject_Z n + (1 # 2)) = n).
  { symmetry. apply Z.le_antisymm.
    - rewrite <- (Qfloor_Z n) at 1. apply Qfloor_resp_le. lra.
    - apply Z.lt_succ_r. rewrite Zlt_Qlt.
      apply Qle_lt_trans with (inject_Z n + (1 # 2)); [apply Qfloor_le|].
      unfold Z.succ. rewrite inject_Z_plus. change (inject_Z 1) with 1. lra. }
  unfold Py.round. rewrite F.
  assert (C : Qcompare (inject_Z n + (1 # 2) - inject_Z n) (1 # 2) = Eq)
    by (apply Qeq_alt; ring).
  rewrite C. reflexivity.
Qed.

Lemma round_of_sector (azimuth : Q) :
  0 <= azimuth -> azimuth < 360 ->
  (0 <= Py.round (azimuth / (45 # 2)) <= 16)%Z.
Proof.
  intros H0 H1. destruct (round_nearest (azimuth / (45 # 2))) as [Hlo Hhi].
  set (r := Py.round (azimuth / (45 # 2))) in *.
  assert (E : azimuth / (45 # 2) == azimuth * (2 # 45)) by (field).
  rewrite E in Hlo, Hhi. split.
  - apply Z.lt_succ_r, Z.lt_pred_lt_succ. rewrite Zlt_Qlt.
    change (inject_Z (Z.pred 0)) with (-1). lra.
  - apply Z.lt_succ_r. rewrite Zlt_Qlt.
    change (inject_Z (Z.succ 16)) with 17. lra.
Qed.

Lemma getitem_int_in_range {A : Type} (l : list A) (i : Z) :
  (0 <= i < Z.of_nat (length l))%Z ->
  exists x, nth_error l (Z.to_nat i) = Some x /\ getitem_int l i = Ok x.
Proof.
  intros [H0 H1]. unfold getitem_int.
  destruct (i <? 0)%Z eqn:N; [apply Z.ltb_lt in N; lia|].
  destruct (nth_error l (Z.to_nat i)) as [x|] eqn:E.
  - exists x. split; [reflexivity | apply getitem_Some; exact E].
  - apply nth_error_None in E. lia.
Qed.

(** C8.  For an azimuth in [0, 360) the helper returns the entry of index
    [round(azimuth / 22.5) mod 16] of the list of the sixteen compass
    points; the rounded value lies between 0 and 16, so the index is in
    range and only 16 wraps (to 0).  0 gives N, 22.5 gives NNE, 359 gives N
    (wrapping) and 180 gives S. *)
Theorem C8_compass_direction :
  (forall azimuth, 0 <= azimuth -> azimuth < 360 ->
     exists d,
       (0 <= Py.round (azimuth / (45 # 2)) <= 16)%Z /\
       nth_error
         ["N"; "NNE"; "NE"; "ENE"; "E"; "ESE"; "SE"; "SSE";
          "S"; "SSW"; "SW"; "WSW"; "W"; "WNW"; "NW"; "NNW"]%string
         (Z.to_nat (Py.round (azimuth / (45 # 2)) mod 16)) = Some d /\
       get_compass_direction azimuth = Ok d) /\
  get_compass_direction 0 = Ok "N"%string /\
  get_compass_direction (45 # 2) = Ok "NNE"%string /\
  get_compass_direction 359 = Ok "N"%string /\
  get_compass_direction 180 = Ok "S"%string.
Proof.
  split; [|repeat split; reflexivity].
  intros azimuth H0 H1. unfold get_compass_direction.
  destruct (getitem_int_in_range directions
              (Py.round (azimuth / (45 # 2)) mod 16)%Z) as (d & Hn & Hd).
  { cbn [length directions]. apply Z.mod_pos_bound. reflexivity. }
  exists d. split; [apply round_of_sector; assumption | split; assumption].
Qed.

Lemma C8_compass_direction_witness :
  exists d, get_compass_direction (135 # 1) = Ok d /\
    nth_error directions 6 = Some d.
Proof.
  destruct (proj1 C8_compass_direction (135 # 1)) as (d & _ & Hn & Hd);
    [discriminate | reflexivity |].
  exists d. split; [exact Hd | exact Hn].
Defined.

(** Half-way between two compass points the tie rule of [round] decides:
    11.25 goes down to N (index 0 is even), 33.75 goes up to NE. *)
Example compass_sector_boundaries :
  get_compass_direction (45 # 4) = Ok "N"%string /\
  get_compass_direction (135 # 4) = Ok "NE"%string.
Proof. split; reflexivity. Qed.

(** ** Repeated invocations, and the transit next to the other events *)

Lemma store_interpolate (times altitudes : VoyagerStore.ref) (i : nat)
    (s : VoyagerStore.state) :
  VoyagerStore.interpolate times altitudes i s =
  (interpolate (VoyagerStore.objects s times) (VoyagerStore.objects s altitudes) i, s).
Proof.
  unfold VoyagerStore.interpolate, interpolate, VoyagerStore.and_then,
    VoyagerStore.read, VoyagerStore.eval, VoyagerStore.ret.
  destruct (getitem (VoyagerStore.objects s times) i); cbn [bind]; [|reflexivity].
  destruct (getitem (VoyagerStore.objects s times) (i - 1)); cbn [bind]; [|reflexivity].
  destruct (getitem (VoyagerStore.objects s altitudes) i); cbn [bind]; [|reflexivity].
  destruct (getitem (VoyagerStore.objects s altitudes) (i - 1)); cbn [bind];
    [|reflexivity].
  destruct (truediv _ _); reflexivity.
Qed.

Lemma store_rising (altitudes : VoyagerStore.ref) (i : nat) (s : VoyagerStore.state) :
  VoyagerStore.rising altitudes i s = (rising (VoyagerStore.objects s altitudes) i, s).
Proof.
  unfold VoyagerStore.rising, rising, VoyagerStore.and_then, VoyagerStore.read,
    VoyagerStore.ret.
  destruct (getitem (VoyagerStore.objects s altitudes) (i - 1)) as [prev|];
    cbn [bind]; [|reflexivity].
  destruct (Qle_bool prev 0); [|reflexivity].
  destruct (getitem (VoyagerStore.objects s altitudes) i); reflexivity.
Qed.

Lemma store_setting (altitudes : VoyagerStore.ref) (i : nat) (s : VoyagerStore.state) :
  VoyagerStore.setting altitudes i s = (setting (VoyagerStore.objects s altitudes) i, s).
Proof.
  unfold VoyagerStore.setting, setting, VoyagerStore.and_then, VoyagerStore.read,
    VoyagerStore.ret.
  destruct (getitem (VoyagerStore.objects s altitudes) (i - 1)) as [prev|];
    cbn [bind]; [|reflexivity].
  destruct (Qlt_bool 0 prev); [|reflexivity].
  destruct (getitem (VoyagerStore.objects s altitudes) i); reflexivity.
Qed.

(** A loop on the store does what the loop on the two sequences computes:
    it assigns the crossing it finds, and leaves the state as it is when it
    finds none or raises. *)
Lemma store_crossing_loop
    (test : VoyagerStore.ref -> nat -> VoyagerStore.prog bool)
    (test' : list Q -> nat -> result bool)
    (assign : option Q -> VoyagerStore.prog unit)
    (times altitudes : VoyagerStore.ref) (idxs : list nat) (s : VoyagerStore.state) :
  (forall i, test altitudes i s = (test' (VoyagerStore.objects s altitudes) i, s)) ->
  VoyagerStore.crossing_loop test assign times altitudes idxs s =
  match crossing_loop test' (VoyagerStore.objects s times)
          (VoyagerStore.objects s altitudes) idxs None with
  | Ok (Some t) => assign (Some t) s
  | Ok None => (Ok tt, s)
  | Raise e => (Raise e, s)
  end.
Proof.
  intro Ht. induction idxs as [|i rest IH]; [reflexivity|].
  cbn [VoyagerStore.crossing_loop crossing_loop]. unfold VoyagerStore.and_then at 1.
  rewrite Ht. destruct (test' _ i) as [[|]|e]; cbn [bind].
  - unfold VoyagerStore.and_then. rewrite store_interpolate.
    destruct (interpolate _ _ i); reflexivity.
  - exact IH.
  - reflexivity.
Qed.

Ltac store_simpl :=
  cbn [VoyagerStore.objects VoyagerStore.rise_time VoyagerStore.transit_time
       VoyagerStore.set_time bind fst snd].

(** What a call returns and the state it leaves behind: the outcome is the
    one computed from the contents of the two sequences, and the objects of
    the store are untouched. *)
Lemma store_detector (times altitudes : VoyagerStore.ref) (s : VoyagerStore.state) :
  fst (VoyagerStore.find_rise_transit_set times altitudes s) =
  find_rise_transit_set (VoyagerStore.objects s times)
                        (VoyagerStore.objects s altitudes) /\
  VoyagerStore.objects (snd (VoyagerStore.find_rise_transit_set times altitudes s)) =
  VoyagerStore.objects s.
Proof.
  destruct s as [o r0 t0 s0].
  unfold VoyagerStore.find_rise_transit_set, find_rise_transit_set.
  unfold VoyagerStore.and_then, VoyagerStore.read, VoyagerStore.ret,
    VoyagerStore.assign_rise_time, VoyagerStore.assign_transit_time,
    VoyagerStore.assign_set_time, VoyagerStore.return_events.
  store_simpl.
  destruct (Py.max (o altitudes)) as [m|e] eqn:Hmax; store_simpl;
    [|split; reflexivity].
  destruct (Qle_bool m 0) eqn:C; [split; reflexivity|].
  rewrite (store_crossing_loop VoyagerStore.rising rising)
    by (intro i; apply store_rising).
  store_simpl.
  destruct (crossing_loop rising (o times) (o altitudes) _ None) as [r|e];
    store_simpl; [|split; reflexivity].
  destruct r as [t|]; store_simpl; rewrite Hmax; store_simpl;
  (destruct (Qlt_bool 0 m); store_simpl;
   [ destruct (argmax (o altitudes)) as [k|e]; store_simpl; [|split; reflexivity];
     destruct (getitem (o times) k) as [tr|e]; store_simpl; [|split; reflexivity]
   | ]);
  rewrite (store_crossing_loop VoyagerStore.setting setting)
    by (intro i; apply store_setting);
  store_simpl;
  (destruct (crossing_loop setting (o times) (o altitudes) _ None) as [[v|]|e];
   store_simpl; split; reflexivity).
Qed.

(** C9.  The detector reads the contents of its two arguments and nothing
    else, and changes no object: run in any state, with any objects in the
    store and anything left in its variables, it returns what
    [find_rise_transit_set] computes from the two sequences and leaves every
    object as it was.  So a second invocation, run in the state that the
    first one left, returns the same outcome, and so does an invocation in
    any other state that holds the same two sequences. *)
Theorem C9_detector_reads_only_its_arguments
    (times altitudes : VoyagerStore.ref) (s : VoyagerStore.state) :
  let detect := VoyagerStore.find_rise_transit_set times altitudes in
  fst (detect s) = find_rise_transit_set (VoyagerStore.objects s times)
                                         (VoyagerStore.objects s altitudes) /\
  VoyagerStore.objects (snd (detect s)) = VoyagerStore.objects s /\
  fst (detect (snd (detect s))) = fst (detect s) /\
  (forall s' : VoyagerStore.state,
     VoyagerStore.objects s' times = VoyagerStore.objects s times ->
     VoyagerStore.objects s' altitudes = VoyagerStore.objects s altitudes ->
     fst (detect s') = fst (detect s)).
Proof.
  intro detect. subst detect.
  destruct (store_detector times altitudes s) as [Hres Hobj].
  split; [exact Hres|]. split; [exact Hobj|]. split.
  - destruct (store_detector times altitudes
                (snd (VoyagerStore.find_rise_transit_set times altitudes s)))
      as [Hres' _].
    rewrite Hres', Hobj, Hres. reflexivity.
  - intros s' Ht Ha. destruct (store_detector times altitudes s') as [Hres' _].
    rewrite Hres', Ht, Ha, Hres. reflexivity.
Qed.

Lemma C9_detector_reads_only_its_arguments_witness :
  let s := {| VoyagerStore.objects :=
                fun r => match r with
                         | O => [0; 60; 120]
                         | 1%nat => [-2; 5; -1]
                         | _ => [42]
                         end;
              VoyagerStore.rise_time := Some 7;
              VoyagerStore.transit_time := Some 8;
              VoyagerStore.set_time := Some 9 |} in
  let detect := VoyagerStore.find_rise_transit_set 0%nat 1%nat in
  fst (detect s) = find_rise_transit_set [0; 60; 120] [-2; 5; -1] /\
  fst (detect (snd (detect s))) = fst (detect s).
Proof.
  intros s detect.
  destruct (C9_detector_reads_only_its_arguments 0%nat 1%nat s)
    as (Hres & _ & Hagain & _).
  split; [exact Hres | exact Hagain].
Defined.

(** C10, as stated, fails: on [5, 6], a series that stays above the
    horizon, rise and set are both [None] and transit is not. *)
Lemma C10_always_above_has_transit_only :
  find_rise_transit_set [0; 60] [5; 6] = Ok (None, Some 60, None) /\
  ~ (transit_of (None, Some 60, None) = None <->
     rise_of (None, Some 60, None) = None /\ set_of (None, Some 60, None) = None).
Proof.
  split; [reflexivity|]. cbn. intros [_ H]. discriminate (H (conj eq_refl eq_refl)).
Qed.

(** C10, amended.  On a non-empty series transit is [None] exactly when
    every altitude is [<= 0], and then rise and set are [None] as well;
    when some altitude is strictly positive transit is present, so transit
    is never absent next to a rise or a set.  (The converse is left out:
    rise and set can both be absent next to a transit.) *)
Theorem C10_transit_absent_only_when_below (times altitudes : list Q) :
  length times = length altitudes -> altitudes <> [] ->
  exists ev, find_rise_transit_set times altitudes = Ok ev /\
    (transit_of ev = None <-> forall a, In a altitudes -> a <= 0) /\
    (transit_of ev = None -> rise_of ev = None /\ set_of ev = None) /\
    ((exists a, In a altitudes /\ 0 < a) -> transit_of ev <> None) /\
    (rise_of ev <> None \/ set_of ev <> None -> transit_of ev <> None).
Proof.
  intros L Hne.
  destruct (detector_spec times altitudes L Hne) as (ev & E & Hr & Hs & Ht).
  exists ev. split; [exact E|].
  destruct Ht as [[Hn Hall]|(k & t & a & _ & _ & Htr & Ha & Hpos)].
  - assert (R : rise_of ev = None).
    { rewrite Hr. unfold first_crossing.
      rewrite (proj1 (no_rising_find altitudes) (below_no_rising _ Hall)).
      reflexivity. }
    assert (S : set_of ev = None).
    { rewrite Hs. unfold first_crossing.
      rewrite (proj1 (no_setting_find altitudes) (below_no_setting _ Hall)).
      reflexivity. }
    repeat split; auto.
    + intros (a & Ha & Hpos). specialize (Hall a Ha). lra.
    + intros [N|N]; congruence.
  - rewrite Htr. repeat split; try discriminate.
    intro Hall. specialize (Hall a Ha). lra.
Qed.

Lemma C10_transit_absent_only_when_below_witness :
  exists ev, find_rise_transit_set [0; 60] [5; 6] = Ok ev /\ transit_of ev <> None.
Proof.
  destruct (C10_transit_absent_only_when_below [0; 60] [5; 6])
    as (ev & E & _ & _ & H & _); [reflexivity | discriminate |].
  exists ev. split; [exact E|]. apply H.
  exists 5. split; [left; reflexivity | reflexivity].
Defined.

(** ** More on the detector: errors, and which timestamps it reads *)












(** ** More on the detector: where the events lie *)








(** ** What [main] prints about the events *)

Import VoyagerReport.

Lemma detector_ok_inv (times altitudes : list Q) (ev : events) :
  find_rise_transit_set times altitudes = Ok ev ->
  ev = (None, None, None) \/ exists t, transit_of ev = Some t.
Proof.
  unfold find_rise_transit_set.
  destruct (Py.max altitudes) as [m|e]; [|discriminate]. cbn [bind].
  destruct (Qle_bool m 0) eqn:C.
  - intro H. injection H as <-. left. reflexivity.
  - destruct (crossing_loop rising _ _ _ _) as [r|e]; [|discriminate]. cbn [bind].
    apply Qle_bool_false, Qlt_bool_iff in C. rewrite C.
    destruct (argmax altitudes) as [k|e]; [|discriminate]. cbn [bind].
    destruct (getitem times k) as [t|e]; [|discriminate]. cbn [bind].
    destruct (crossing_loop setting _ _ _ _) as [s|e]; [|discriminate]. cbn [bind].
    intro H. injection H as <-. right. exists t. reflexivity.
Qed.

Lemma detector_all_below (times altitudes : list Q) :
  altitudes <> [] -> (forall a, In a altitudes -> a <= 0) ->
  find_rise_transit_set times altitudes = Ok (None, None, None).
Proof.
  intros Hne Hall. destruct (max_nonempty altitudes Hne) as [m Hm].
  apply (detector_below times altitudes m Hm).
  apply Hall. apply (max_spec altitudes m Hm).
Qed.

(** X5.  For altitudes that are numbers (no NaN among them), whatever the
    timestamps and the two lengths, [main] never prints "Transit: Not
    observed in this time period": when the detector returns no transit it
    returns no rise and no set either, and [main] then prints the single
    "remains below the horizon" line. *)
Theorem transit_not_observed_is_never_printed (name : string)
    (utc_times altitudes : list Q) :
  ~ In TransitNotObserved (viewing_events name utc_times altitudes).
Proof.
  unfold viewing_events.
  destruct (find_rise_transit_set utc_times altitudes) as [[[r tr] s]|e] eqn:E.
  - apply detector_ok_inv in E. destruct E as [E|[t E]].
    + injection E as -> -> ->. cbn. intros [H|[H|[]]]; discriminate.
    + cbn in E. subst tr. unfold transit_lines.
      destruct (bind (argmax altitudes) _) as [alt|e'];
        destruct r, s; cbn; intuition discriminate.
  - cbn. intros [H|[]]. discriminate.
Qed.

(** X6.  For a non-empty series of samples, [main] prints the "remains
    below the horizon" line, and nothing else after the header, exactly when
    every altitude is at or below the horizon. *)
Theorem remains_below_is_printed_iff (name : string) (utc_times altitudes : list Q) :
  length utc_times = length altitudes -> altitudes <> [] ->
  (viewing_events name utc_times altitudes = [ViewingHeader; RemainsBelow name]
   <-> forall a, In a altitudes -> a <= 0) /\
  (In (RemainsBelow name) (viewing_events name utc_times altitudes)
   <-> forall a, In a altitudes -> a <= 0).
Proof.
  intros L Hne. unfold viewing_events.
  destruct (detector_spec utc_times altitudes L Hne) as (ev & E & _ & _ & Ht).
  rewrite E. destruct ev as [[r tr] s]. cbn in Ht.
  destruct Ht as [[-> Hall]|(k & t & a & _ & _ & -> & Ha & Hpos)].
  - pose proof (detector_all_below utc_times altitudes Hne Hall) as E'.
    rewrite E' in E. injection E as <- <-. cbn. split; split; auto.
  - assert (N : ~ forall a, In a altitudes -> a <= 0).
    { intro Hall. specialize (Hall a Ha). lra. }
    unfold transit_lines.
    destruct (bind (argmax altitudes) _) as [alt|e'];
      destruct r, s; cbn; split; split; try tauto; try discriminate;
      intuition discriminate.
Qed.

Lemma remains_below_is_printed_iff_witness :
  viewing_events "Voyager 1" [0; 60; 120] [-3; 0; -8]
  = [ViewingHeader; RemainsBelow "Voyager 1"].
Proof.
  apply (proj1 (remains_below_is_printed_iff "Voyager 1" [0; 60; 120] [-3; 0; -8]
                  eq_refl ltac:(discriminate))).
  intros a [<-|[<-|[<-|[]]]]; discriminate.
Defined.

Lemma first_maximum_unique (altitudes : list Q) (k k' : nat) :
  first_maximum altitudes k -> first_maximum altitudes k' -> k = k'.
Proof.
  intros (m & Hk & Hub & Hbefore) (m' & Hk' & Hub' & Hbefore').
  destruct (Nat.lt_trichotomy k k') as [Hlt|[->|Hlt]]; [exfalso|reflexivity|exfalso].
  - pose proof (Hbefore' k m Hlt Hk). pose proof (Hub k' m' Hk'). lra.
  - pose proof (Hbefore k' m' Hlt Hk'). pose proof (Hub' k m Hk). lra.
Qed.

(** X7.  When some altitude is above the horizon (and every sample has its
    timestamp), [main] prints after the header exactly three lines: the rise
    or its absence, the transit with the greatest altitude of the series,
    which is positive, and the set or its absence. *)
Theorem events_block_when_above (name : string) (utc_times altitudes : list Q) :
  length utc_times = length altitudes ->
  (exists a, In a altitudes /\ 0 < a) ->
  exists ev k t m,
    find_rise_transit_set utc_times altitudes = Ok ev /\
    first_maximum altitudes k /\
    nth_error utc_times k = Some t /\ nth_error altitudes k = Some m /\ 0 < m /\
    viewing_events name utc_times altitudes =
    [ViewingHeader;
     match rise_of ev with Some r => RiseAt r | None => RiseNotObserved end;
     TransitAt t m;
     match set_of ev with Some s => SetAt s | None => SetNotObserved end].
Proof.
  intros L (a & Ha & Hpos).
  assert (Hne : altitudes <> []) by (intros ->; destruct Ha).
  destruct (detector_spec utc_times altitudes L Hne)
    as (ev & E & _ & _ & [[_ Hall]|(k & t & _ & Hfm & Ht & Htr & _)]).
  { specialize (Hall a Ha). lra. }
  destruct (argmax_spec altitudes Hne) as (k0 & Hk0 & Hfm0).
  assert (k0 = k) by (apply (first_maximum_unique altitudes); assumption).
  subst k0. pose proof Hfm as (m & Hm & Hub & _).
  assert (0 < m).
  { apply In_nth_error in Ha. destruct Ha as [j Hj]. specialize (Hub j a Hj). lra. }
  exists ev, k, t, m. repeat split; auto.
  unfold viewing_events. rewrite E. destruct ev as [[r tr] s].
  cbn in Htr. subst tr. cbn [rise_of set_of fst snd].
  unfold transit_lines. rewrite Hk0. cbn [bind].
  rewrite (getitem_Some _ _ _ Hm). destruct r, s; reflexivity.
Qed.

Lemma events_block_when_above_witness :
  exists ev k t m,
    find_rise_transit_set [0; 60; 120] [-2; 5; -1] = Ok ev /\
    first_maximum [-2; 5; -1] k /\
    nth_error [0; 60; 120] k = Some t /\ nth_error [-2; 5; -1] k = Some m /\ 0 < m /\
    viewing_events "Voyager 2" [0; 60; 120] [-2; 5; -1] =
    [ViewingHeader;
     match rise_of ev with Some r => RiseAt r | None => RiseNotObserved end;
     TransitAt t m;
     match set_of ev with Some s => SetAt s | None => SetNotObserved end].
Proof.
  apply (events_block_when_above "Voyager 2" [0; 60; 120] [-2; 5; -1]).
  - reflexivity.
  - exists 5. split; [right; left; reflexivity | reflexivity].
Defined.

(** ** archive/voyager_from_kc-2.py: [check_visibility] *)

Import VoyagerArchive.

(** X8.  [check_visibility] answers "visible" exactly when the object is at
    or above the horizon, the Sun is at or below -6 degrees and the
    magnitude is at most 6.5 (each bound included); otherwise the reason
    given is the first test that fails, in the order horizon, daylight,
    brightness. *)
Theorem check_visibility_spec (alt mag sun_alt : Q) :
  (fst (check_visibility alt mag sun_alt) = true <->
     0 <= alt /\ sun_alt <= -6 /\ mag <= 13 # 2) /\
  (check_visibility alt mag sun_alt = (true, "Theoretically visible"%string) <->
     0 <= alt /\ sun_alt <= -6 /\ mag <= 13 # 2) /\
  (check_visibility alt mag sun_alt = (false, "Below horizon"%string) <->
     alt < 0) /\
  (check_visibility alt mag sun_alt = (false, "Daylight or civil twilight"%string) <->
     0 <= alt /\ -6 < sun_alt) /\
  (check_visibility alt mag sun_alt = (false, "Too dim for naked eye"%string) <->
     0 <= alt /\ sun_alt <= -6 /\ 13 # 2 < mag).
Proof.
  unfold check_visibility.
  destruct (Qlt_bool alt 0) eqn:A;
    [apply Qlt_bool_iff in A | apply Qlt_bool_false in A];
  (destruct (Qlt_bool (-6) sun_alt) eqn:S;
    [apply Qlt_bool_iff in S | apply Qlt_bool_false in S]);
  (destruct (Qlt_bool (13 # 2) mag) eqn:M;
    [apply Qlt_bool_iff in M | apply Qlt_bool_false in M]);
  cbn [fst]; repeat split; intros; try discriminate; try assumption;
  try reflexivity;
  repeat match goal with H : _ /\ _ |- _ => destruct H end; try lra.
Qed.

(** ** More on the compass helper *)

Lemma Qfloor_unique (x : Q) (f : Z) :
  inject_Z f <= x -> x < inject_Z f + 1 -> Qfloor x = f.
Proof.
  intros Hlo Hhi. pose proof (Qfloor_le x) as Flo. pose proof (Qlt_floor x) as Fhi.
  rewrite inject_Z_plus in Fhi. change (inject_Z 1) with 1 in Fhi.
  assert (A : (Qfloor x < f + 1)%Z).
  { rewrite Zlt_Qlt, inject_Z_plus. change (inject_Z 1) with 1. lra. }
  assert (B : (f < Qfloor x + 1)%Z).
  { rewrite Zlt_Qlt, inject_Z_plus. change (inject_Z 1) with 1. lra. }
  lia.
Qed.

Lemma round_comp (x y : Q) : x == y -> Py.round x = Py.round y.
Proof.
  intro E. unfold Py.round. rewrite (Qfloor_comp x y E).
  assert (C : Qcompare (x - inject_Z (Qfloor y)) (1 # 2)
            = Qcompare (y - inject_Z (Qfloor y)) (1 # 2))
    by (apply Qcompare_comp; [rewrite E|]; reflexivity).
  rewrite C. reflexivity.
Qed.

Lemma round_unique (x : Q) (k : Z) :
  inject_Z k - (1 # 2) < x -> x < inject_Z k + (1 # 2) -> Py.round x = k.
Proof.
  intros Hlo Hhi. destruct (round_nearest x) as [Rlo Rhi].
  assert (A : (Py.round x < k + 1)%Z).
  { rewrite Zlt_Qlt, inject_Z_plus. change (inject_Z 1) with 1. lra. }
  assert (B : (k < Py.round x + 1)%Z).
  { rewrite Zlt_Qlt, inject_Z_plus. change (inject_Z 1) with 1. lra. }
  lia.
Qed.







(** X12.  An azimuth exactly half-way between the points of index [k] and
    [k + 1] is given the one of even index, so the sectors of N, NE, E, SE,
    S, SW, W and NW contain both their ends and the other eight sectors
    neither. *)
Theorem compass_half_way_goes_to_even (k : Z) :
  get_compass_direction ((45 # 2) * inject_Z k + (45 # 4)) =
  getitem_int directions ((if Z.even k then k else k + 1) mod 16).
Proof.
  unfold get_compass_direction.
  rewrite (round_comp (((45 # 2) * inject_Z k + (45 # 4)) / (45 # 2))
                      (inject_Z k + (1 # 2))) by field.
  rewrite round_half_even. reflexivity.
Qed.

(** ** More on the detector: change of epoch and of altitude unit *)

Lemma find_ext_in (p q : nat -> bool) (l : list nat) :
  (forall i, In i l -> p i = q i) -> find p l = find q l.
Proof.
  induction l as [|i rest IH]; intro H; [reflexivity|].
  cbn [find]. rewrite (H i) by (left; reflexivity).
  rewrite IH by (intros j Hj; apply H; right; exact Hj). reflexivity.
Qed.

Lemma nth_map_in_range (f : Q -> Q) (l : list Q) (i : nat) :
  (i < length l)%nat -> nth i (map f l) 0 = f (nth i l 0).
Proof.
  intro H. rewrite (nth_indep (map f l) 0 (f 0)) by (rewrite length_map; exact H).
  apply map_nth.
Qed.

Lemma crossing_shift (c : Q) (times altitudes : list Q) (i : nat) :
  (1 <= i < length times)%nat ->
  crossing (map (fun t => t + c) times) altitudes i ==
  crossing times altitudes i + c.
Proof.
  intros [H1 H2]. unfold crossing.
  rewrite !(nth_map_in_range (fun t => t + c)) by lia.
  unfold Qdiv. ring.
Qed.

(** X13.  Moving every timestamp by the same amount [c] moves every
    reported event by [c] and changes nothing else: the events do not
    depend on the epoch from which time is counted. *)
Theorem detector_commutes_with_time_shift (c : Q) (times altitudes : list Q) :
  length times = length altitudes -> altitudes <> [] ->
  exists ev ev',
    find_rise_transit_set times altitudes = Ok ev /\
    find_rise_transit_set (map (fun t => t + c) times) altitudes = Ok ev' /\
    same_time (rise_of ev') (shifted c (rise_of ev)) /\
    transit_of ev' = shifted c (transit_of ev) /\
    same_time (set_of ev') (shifted c (set_of ev)).
Proof.
  intros L Hne.
  assert (L' : length (map (fun t => t + c) times) = length altitudes)
    by (rewrite length_map; exact L).
  destruct (detector_spec times altitudes L Hne) as (ev & E & Hr & Hs & Ht).
  destruct (detector_spec _ altitudes L' Hne) as (ev' & E' & Hr' & Hs' & Ht').
  exists ev, ev'. split; [exact E|]. split; [exact E'|].
  rewrite Hr, Hs, Hr', Hs'. unfold first_crossing, shifted.
  split; [|split].
  - destruct (find (rising_b altitudes) _) as [i|] eqn:F; cbn; [|exact I].
    unfold range in F. apply find_seq_Some in F. apply crossing_shift. lia.
  - destruct Ht as [[Hn Hall]|(k & t & a & Hfm & Hk & Htr & Ha & Hpos)];
      destruct Ht' as [[Hn' Hall']|(k' & t' & a' & Hfm' & Hk' & Htr' & Ha' & Hpos')].
    + rewrite Hn, Hn'. reflexivity.
    + exfalso. specialize (Hall a' Ha'). lra.
    + exfalso. specialize (Hall' a Ha). lra.
    + assert (k' = k) by (apply (first_maximum_unique altitudes); assumption).
      subst k'. rewrite Htr, Htr'. cbn. rewrite nth_error_map, Hk in Hk'.
      cbn in Hk'. congruence.
  - destruct (find (setting_b altitudes) _) as [i|] eqn:F; cbn; [|exact I].
    unfold range in F. apply find_seq_Some in F. apply crossing_shift. lia.
Qed.

Lemma detector_commutes_with_time_shift_witness :
  exists ev ev',
    find_rise_transit_set [0; 60; 120] [-2; 5; -1] = Ok ev /\
    find_rise_transit_set (map (fun t => t + 3600) [0; 60; 120]) [-2; 5; -1] = Ok ev' /\
    same_time (rise_of ev') (shifted 3600 (rise_of ev)) /\
    transit_of ev' = shifted 3600 (transit_of ev) /\
    same_time (set_of ev') (shifted 3600 (set_of ev)).
Proof.
  apply (detector_commutes_with_time_shift 3600 [0; 60; 120] [-2; 5; -1]).
  - reflexivity.
  - discriminate.
Defined.

Lemma scale_le_0 (k a : Q) : 0 < k -> Qle_bool (k * a) 0 = Qle_bool a 0.
Proof.
  intro Hk. destruct (Qle_bool a 0) eqn:E.
  - apply Qle_bool_iff in E. apply Qle_bool_iff. nra.
  - apply Qle_bool_false in E. apply Qle_bool_false. nra.
Qed.

Lemma scale_lt_0 (k a : Q) : 0 < k -> Qlt_bool 0 (k * a) = Qlt_bool 0 a.
Proof.
  intro Hk. destruct (Qlt_bool 0 a) eqn:E.
  - apply Qlt_bool_iff in E. apply Qlt_bool_iff. nra.
  - apply Qlt_bool_false in E. apply Qlt_bool_false. nra.
Qed.

Lemma rising_b_scale (k : Q) (altitudes : list Q) (i : nat) :
  0 < k -> (1 <= i < length altitudes)%nat ->
  rising_b (map (Qmult k) altitudes) i = rising_b altitudes i.
Proof.
  intros Hk R. unfold rising_b.
  rewrite !(nth_map_in_range (Qmult k)) by lia.
  rewrite scale_le_0, scale_lt_0 by exact Hk. reflexivity.
Qed.

Lemma setting_b_scale (k : Q) (altitudes : list Q) (i : nat) :
  0 < k -> (1 <= i < length altitudes)%nat ->
  setting_b (map (Qmult k) altitudes) i = setting_b altitudes i.
Proof.
  intros Hk R. unfold setting_b.
  rewrite !(nth_map_in_range (Qmult k)) by lia.
  rewrite scale_le_0, scale_lt_0 by exact Hk. reflexivity.
Qed.

Lemma first_maximum_scale (k : Q) (altitudes : list Q) (n : nat) :
  0 < k -> first_maximum (map (Qmult k) altitudes) n -> first_maximum altitudes n.
Proof.
  intros Hk (m' & Hn & Hub & Hbefore). rewrite nth_error_map in Hn.
  destruct (nth_error altitudes n) as [m|] eqn:En; [|discriminate].
  cbn in Hn. injection Hn as <-. exists m. split; [exact En|]. split.
  - intros j a Ha. specialize (Hub j (k * a)). rewrite nth_error_map, Ha in Hub.
    specialize (Hub eq_refl). nra.
  - intros j a Hj Ha. specialize (Hbefore j (k * a) Hj).
    rewrite nth_error_map, Ha in Hbefore. specialize (Hbefore eq_refl). nra.
Qed.

Lemma find_scale (p p' : nat -> bool) (altitudes altitudes' : list Q) :
  length altitudes' = length altitudes ->
  (forall i, (1 <= i < length altitudes)%nat -> p' i = p i) ->
  find p' (range 1 (length altitudes')) = find p (range 1 (length altitudes)).
Proof.
  intros L Hp. rewrite L. apply find_ext_in.
  intros i Hi. apply in_range_iff in Hi. apply Hp. exact Hi.
Qed.

(** X14.  Multiplying every altitude by the same positive factor (degrees
    to radians, say) changes neither which events are reported, nor the
    transit time, nor the pair of consecutive samples from which the rise
    and the set are interpolated. *)
Theorem detector_ignores_altitude_unit (k : Q) (times altitudes : list Q) :
  0 < k -> length times = length altitudes -> altitudes <> [] ->
  exists ev ev',
    find_rise_transit_set times altitudes = Ok ev /\
    find_rise_transit_set times (map (Qmult k) altitudes) = Ok ev' /\
    transit_of ev' = transit_of ev /\
    (rise_of ev' = None <-> rise_of ev = None) /\
    (set_of ev' = None <-> set_of ev = None) /\
    (forall i, first_such (rising_pair (map (Qmult k) altitudes)) i <->
               first_such (rising_pair altitudes) i) /\
    (forall i, first_such (setting_pair (map (Qmult k) altitudes)) i <->
               first_such (setting_pair altitudes) i).
Proof.
  intros Hk L Hne.
  assert (Lm : length (map (Qmult k) altitudes) = length altitudes)
    by apply length_map.
  assert (L' : length times = length (map (Qmult k) altitudes)) by congruence.
  assert (Hne' : map (Qmult k) altitudes <> [])
    by (destruct altitudes; [congruence | discriminate]).
  assert (Fr : find (rising_b (map (Qmult k) altitudes))
                 (range 1 (length (map (Qmult k) altitudes)))
               = find (rising_b altitudes) (range 1 (length altitudes))).
  { apply find_scale; [exact Lm|]. intros i R. apply rising_b_scale; assumption. }
  assert (Fs : find (setting_b (map (Qmult k) altitudes))
                 (range 1 (length (map (Qmult k) altitudes)))
               = find (setting_b altitudes) (range 1 (length altitudes))).
  { apply find_scale; [exact Lm|]. intros i R. apply setting_b_scale; assumption. }
  destruct (detector_spec times altitudes L Hne) as (ev & E & Hr & Hs & Ht).
  destruct (detector_spec times _ L' Hne') as (ev' & E' & Hr' & Hs' & Ht').
  exists ev, ev'. split; [exact E|]. split; [exact E'|].
  rewrite Hr, Hs, Hr', Hs'. unfold first_crossing. rewrite Fr, Fs.
  split; [|split; [|split; [|split]]].
  - destruct Ht as [[Hn Hall]|(n & t & a & Hfm & Hn & Htr & Ha & Hpos)];
      destruct Ht' as [[Hn' Hall']|(n' & t' & a' & Hfm' & Hn' & Htr' & Ha' & Hpos')].
    + rewrite Hn, Hn'. reflexivity.
    + exfalso. apply in_map_iff in Ha'. destruct Ha' as (b & <- & Hb).
      specialize (Hall b Hb). nra.
    + exfalso. specialize (Hall' (k * a) (in_map (Qmult k) _ _ Ha)). nra.
    + apply first_maximum_scale in Hfm'; [|exact Hk].
      assert (n' = n) by (apply (first_maximum_unique altitudes); assumption).
      subst n'. rewrite Htr, Htr'. congruence.
  - destruct (find (rising_b altitudes) _); cbn; split; intro H;
      try discriminate H; reflexivity.
  - destruct (find (setting_b altitudes) _); cbn; split; intro H;
      try discriminate H; reflexivity.
  - intro i. rewrite !first_rising_find, Fr. reflexivity.
  - intro i. rewrite !first_setting_find, Fs. reflexivity.
Qed.

Lemma detector_ignores_altitude_unit_witness :
  exists ev ev',
    find_rise_transit_set [0; 60; 120] [-2; 5; -1] = Ok ev /\
    find_rise_transit_set [0; 60; 120] (map (Qmult (1 # 57)) [-2; 5; -1]) = Ok ev' /\
    transit_of ev' = transit_of ev.
Proof.
  destruct (detector_ignores_altitude_unit (1 # 57) [0; 60; 120] [-2; 5; -1])
    as (ev & ev' & E & E' & H & _); [reflexivity | reflexivity | discriminate |].
  exists ev, ev'. auto.
Defined.

(** ** planets.py: [format_distance_km] *)

Import PyFormat.
Import Planets.

Example format_distance_examples :
  format_distance_km 778500000 = "778.500 million km"%string /\
  format_distance_km 4500000000 = "4.500 billion km"%string /\
  format_distance_km (3844005 # 10) = "384.400 thousand km"%string /\
  format_distance_km (1 # 8) = "0 km"%string /\
  format_distance_km (-1234567) = "-1,234,567 km"%string.
Proof. repeat split; reflexivity. Qed.

Lemma round_tie_low (x : Q) (k : Z) :
  Z.even k = true ->
  inject_Z k - (1 # 2) <= x -> x < inject_Z k + (1 # 2) -> Py.round x = k.
Proof.
  intros Hk Hlo Hhi.
  destruct (Qlt_le_dec (inject_Z k - (1 # 2)) x) as [Hlt|Hle].
  - apply round_unique; assumption.
  - rewrite (round_comp x (inject_Z (k - 1) + (1 # 2))).
    + rewrite round_half_even.
      replace (Z.even (k - 1)) with false; [lia|].
      rewrite Z.even_sub, Hk. reflexivity.
    + unfold Z.sub. rewrite inject_Z_plus. change (inject_Z (- (1))) with (-1).
      apply Qle_antisym; lra.
Qed.

Lemma format_nonneg (prec : nat) (grouped : bool) (x : Q) :
  0 <= x ->
  format_fixed prec grouped x =
  fixed prec grouped (Py.round (x * inject_Z (10 ^ Z.of_nat prec))).
Proof.
  intro H. unfold format_fixed.
  apply Qlt_bool_false in H as S. rewrite S. cbn [append].
  rewrite (round_comp (Qabs x * inject_Z (10 ^ Z.of_nat prec))
                      (x * inject_Z (10 ^ Z.of_nat prec)))
    by (rewrite Qabs_pos by exact H; reflexivity).
  reflexivity.
Qed.

(** What [format_distance_km] prints for a distance of [scale] km or more
    that falls in the branch of that unit. *)
Lemma scaled_distance (d scale : Q) :
  0 < scale -> scale <= d ->
  exists n : Z,
    format_f 3 (d / scale) = fixed 3 false n /\
    (1000 <= n)%Z /\
    inject_Z n - (1 # 2) <= d / scale * 1000 /\
    d / scale * 1000 <= inject_Z n + (1 # 2).
Proof.
  intros Hs Hd.
  assert (H1 : 1 <= d / scale) by (apply Qle_shift_div_l; lra).
  exists (Py.round (d / scale * 1000)).
  destruct (round_nearest (d / scale * 1000)) as [Hlo Hhi].
  split; [|split; [|split; assumption]].
  - unfold format_f. rewrite format_nonneg by lra. reflexivity.
  - apply Z.lt_pred_le. rewrite Zlt_Qlt.
    change (inject_Z (Z.pred 1000)) with 999. lra.
Qed.

(** X15.  [format_distance_km] picks the unit by the size of the distance
    (billion from 10^9, million from 10^6, thousand from 10^3) and prints
    the distance in that unit rounded to the nearest thousandth: the printed
    number is at most 0.0005 units away from the distance, it is never less
    than 1.000, and in million and thousand km never more than 1000.000. *)
Theorem format_distance_km_units (distance_km : Q) :
  (1000000000 <= distance_km ->
   exists n : Z,
     format_distance_km distance_km = (fixed 3 false n ++ " billion km")%string /\
     (1000 <= n)%Z /\
     inject_Z n - (1 # 2) <= distance_km / 1000000000 * 1000 /\
     distance_km / 1000000000 * 1000 <= inject_Z n + (1 # 2)) /\
  (1000000 <= distance_km -> distance_km < 1000000000 ->
   exists n : Z,
     format_distance_km distance_km = (fixed 3 false n ++ " million km")%string /\
     (1000 <= n <= 1000000)%Z /\
     inject_Z n - (1 # 2) <= distance_km / 1000000 * 1000 /\
     distance_km / 1000000 * 1000 <= inject_Z n + (1 # 2)) /\
  (1000 <= distance_km -> distance_km < 1000000 ->
   exists n : Z,
     format_distance_km distance_km = (fixed 3 false n ++ " thousand km")%string /\
     (1000 <= n <= 1000000)%Z /\
     inject_Z n - (1 # 2) <= distance_km / 1000 * 1000 /\
     distance_km / 1000 * 1000 <= inject_Z n + (1 # 2)).
Proof.
  unfold format_distance_km. split; [|split].
  - intro H9. apply Qle_bool_iff in H9 as B. rewrite B.
    destruct (scaled_distance distance_km 1000000000) as (n & F & Hn & Hlo & Hhi);
      [reflexivity | exact H9 |].
    exists n. rewrite F. auto.
  - intros H6 H9. apply Qle_bool_false in H9 as B9. rewrite B9.
    apply Qle_bool_iff in H6 as B6. rewrite B6.
    destruct (scaled_distance distance_km 1000000) as (n & F & Hn & Hlo & Hhi);
      [reflexivity | exact H6 |].
    exists n. rewrite F. repeat split; auto.
    assert (E : distance_km / 1000000 * 1000 == distance_km * (1 # 1000)) by field.
    rewrite E in Hlo.
    apply Z.lt_succ_r. rewrite Zlt_Qlt.
    change (inject_Z (Z.succ 1000000)) with 1000001. lra.
  - intros H3 H6. apply Qle_bool_false in H6 as B6.
    assert (B9 : Qle_bool 1000000000 distance_km = false)
      by (apply Qle_bool_false; lra).
    rewrite B9, B6. apply Qle_bool_iff in H3 as B3. rewrite B3.
    destruct (scaled_distance distance_km 1000) as (n & F & Hn & Hlo & Hhi);
      [reflexivity | exact H3 |].
    exists n. rewrite F. repeat split; auto.
    assert (E : distance_km / 1000 * 1000 == distance_km) by field.
    rewrite E in Hlo.
    apply Z.lt_succ_r. rewrite Zlt_Qlt.
    change (inject_Z (Z.succ 1000000)) with 1000001. lra.
Qed.

Lemma format_distance_km_units_witness :
  exists n : Z,
    format_distance_km 778500000 = (fixed 3 false n ++ " million km")%string /\
    (1000 <= n <= 1000000)%Z.
Proof.
  destruct (proj1 (proj2 (format_distance_km_units 778500000)))
    as (n & F & Hn & _); [discriminate | reflexivity |].
  exists n. auto.
Defined.

(** X16.  Just below each threshold the smaller unit is kept and the
    rounding carries: from 999.5 up to 1000 km the result is "1,000 km",
    from 999999.5 up to 10^6 km it is "1000.000 thousand km", and from
    999999500 up to 10^9 km it is "1000.000 million km". *)
Theorem format_distance_km_carries (distance_km : Q) :
  ((1999 # 2) <= distance_km -> distance_km < 1000 ->
   format_distance_km distance_km = "1,000 km"%string) /\
  ((1999999 # 2) <= distance_km -> distance_km < 1000000 ->
   format_distance_km distance_km = "1000.000 thousand km"%string) /\
  (999999500 <= distance_km -> distance_km < 1000000000 ->
   format_distance_km distance_km = "1000.000 million km"%string).
Proof.
  unfold format_distance_km. split; [|split]; intros Hlo Hhi.
  - assert (B9 : Qle_bool 1000000000 distance_km = false)
      by (apply Qle_bool_false; lra).
    assert (B6 : Qle_bool 1000000 distance_km = false)
      by (apply Qle_bool_false; lra).
    assert (B3 : Qle_bool 1000 distance_km = false)
      by (apply Qle_bool_false; lra).
    rewrite B9, B6, B3. unfold format_comma_f. rewrite format_nonneg by lra.
    rewrite (round_tie_low _ 1000); [reflexivity | reflexivity | |];
      change (inject_Z (10 ^ Z.of_nat 0)) with 1; change (inject_Z 1000) with 1000;
      lra.
  - assert (B9 : Qle_bool 1000000000 distance_km = false)
      by (apply Qle_bool_false; lra).
    assert (B6 : Qle_bool 1000000 distance_km = false)
      by (apply Qle_bool_false; lra).
    assert (B3 : Qle_bool 1000 distance_km = true)
      by (apply Qle_bool_iff; lra).
    rewrite B9, B6, B3. unfold format_f.
    assert (E : distance_km / 1000 == distance_km * (1 # 1000)) by field.
    rewrite format_nonneg by (rewrite E; lra).
    rewrite (round_tie_low _ 1000000); [reflexivity | reflexivity | |];
      change (inject_Z (10 ^ Z.of_nat 3)) with 1000;
      change (inject_Z 1000000) with 1000000; rewrite E; lra.
  - assert (B9 : Qle_bool 1000000000 distance_km = false)
      by (apply Qle_bool_false; lra).
    assert (B6 : Qle_bool 1000000 distance_km = true)
      by (apply Qle_bool_iff; lra).
    rewrite B9, B6. unfold format_f.
    assert (E : distance_km / 1000000 == distance_km * (1 # 1000000)) by field.
    rewrite format_nonneg by (rewrite E; lra).
    rewrite (round_tie_low _ 1000000); [reflexivity | reflexivity | |];
      change (inject_Z (10 ^ Z.of_nat 3)) with 1000;
      change (inject_Z 1000000) with 1000000; rewrite E; lra.
Qed.

Lemma format_distance_km_carries_witness :
  format_distance_km (19999999 # 20) = "1000.000 thousand km"%string.
Proof.
  apply (proj1 (proj2 (format_distance_km_carries (19999999 # 20))));
    [discriminate | reflexivity].
Defined.

(** ** celestial_objects.py: [degrees_to_dms] and [hours_to_hms] *)

Import CelestialObjects.

Example dms_hms_examples :
  degrees_to_dms (-(6179 # 400)) = ("-15° 26' 51.0" ++ dquote)%string /\
  hours_to_hms (1369 # 200) = "6h 50m 42.0s"%string /\
  hours_to_hms (-(1 # 2)) = "0h -30m 0.0s"%string.
Proof. repeat split; reflexivity. Qed.

Lemma int_nonneg (x : Q) : 0 <= x -> PyFormat.int x = Qfloor x.
Proof.
  destruct x as [n d]. unfold Qle, PyFormat.int, Qfloor. cbn. intro H.
  apply Z.quot_div_nonneg; lia.
Qed.

Lemma int_opp (x : Q) : PyFormat.int (- x) = (- PyFormat.int x)%Z.
Proof.
  destruct x as [n d]. unfold PyFormat.int. cbn. apply Z.quot_opp_l. lia.
Qed.

Lemma int_comp (x y : Q) : x == y -> PyFormat.int x = PyFormat.int y.
Proof.
  intro E. destruct (Qlt_le_dec x 0) as [Hneg|Hpos].
  - pose proof (int_opp x) as Ox. pose proof (int_opp y) as Oy.
    rewrite int_nonneg in Ox, Oy by lra.
    rewrite (Qfloor_comp (- x) (- y)) in Ox by lra. lia.
  - rewrite !int_nonneg by lra. apply Qfloor_comp. exact E.
Qed.

(** The integer part and what is left of a non-negative number. *)
Lemma int_part_nonneg (x : Q) :
  0 <= x ->
  (0 <= PyFormat.int x)%Z /\
  inject_Z (PyFormat.int x) <= x /\ x < inject_Z (PyFormat.int x) + 1.
Proof.
  intro H. rewrite int_nonneg by exact H.
  pose proof (Qfloor_le x) as Flo. pose proof (Qlt_floor x) as Fhi.
  rewrite inject_Z_plus in Fhi. change (inject_Z 1) with 1 in Fhi.
  repeat split; try assumption.
  change 0%Z with (Qfloor 0). apply Qfloor_resp_le. exact H.
Qed.

Lemma int_below (x : Q) (k : Z) : 0 <= x -> x < inject_Z k -> (PyFormat.int x < k)%Z.
Proof.
  intros H Hk. destruct (int_part_nonneg x H) as (_ & Hlo & _).
  rewrite Zlt_Qlt. lra.
Qed.

(** Sixty times the fractional part, split again. *)
Lemma sexagesimal_split (x : Q) :
  0 <= x ->
  let d := PyFormat.int x in
  let minutes := (x - inject_Z d) * 60 in
  let m := PyFormat.int minutes in
  let s := (minutes - inject_Z m) * 60 in
  (0 <= d)%Z /\ (0 <= m <= 59)%Z /\ 0 <= s /\ s < 60 /\
  x == inject_Z d + inject_Z m / 60 + s / 3600.
Proof.
  intros H d minutes m s.
  destruct (int_part_nonneg x H) as (Hd & Dlo & Dhi). fold d in Hd, Dlo, Dhi.
  assert (Hmin : 0 <= minutes) by (unfold minutes; lra).
  assert (Hmin' : minutes < inject_Z 60)
    by (change (inject_Z 60) with 60; unfold minutes; lra).
  destruct (int_part_nonneg minutes Hmin) as (Hm & Mlo & Mhi).
  fold m in Hm, Mlo, Mhi.
  pose proof (int_below minutes 60 Hmin Hmin') as Hm59. fold m in Hm59.
  repeat split; try lia; try (unfold s; lra).
  unfold s, minutes. field.
Qed.

(** X17.  In [degrees_to_dms] the degrees are the integer part of the
    absolute value of the angle, the minutes lie from 0 to 59 and the
    seconds from 0 up to 60, and the sign is carried apart ("-" exactly for
    a negative angle): none of the three parts is ever negative. *)
Theorem degrees_to_dms_parts (degrees : Q) :
  let '(is_negative, d, m, s) := dms_parts degrees in
  (is_negative = true <-> degrees < 0) /\
  (0 <= d)%Z /\ inject_Z d <= Qabs degrees /\ Qabs degrees < inject_Z d + 1 /\
  (0 <= m <= 59)%Z /\ 0 <= s /\ s < 60.
Proof.
  unfold dms_parts. split; [apply Qlt_bool_iff|].
  destruct (sexagesimal_split (Qabs degrees) (Qabs_nonneg degrees))
    as (Hd & Hm & Hs0 & Hs1 & _).
  destruct (int_part_nonneg (Qabs degrees) (Qabs_nonneg degrees)) as (_ & Dlo & Dhi).
  repeat split; try assumption; lia.
Qed.

(** X18.  In [hours_to_hms], for a non-negative number of hours, the hours
    are its integer part, the minutes lie from 0 to 59 and the seconds from
    0 up to 60.  There is no sign apart: for a negative input none of the
    three parts is positive, and hours between -1 and 0 give 0 hours next to
    negative minutes or seconds. *)
Theorem hours_to_hms_parts (hours : Q) :
  let '(h, m, s) := hms_parts hours in
  (0 <= hours ->
   (0 <= h)%Z /\ inject_Z h <= hours /\ hours < inject_Z h + 1 /\
   (0 <= m <= 59)%Z /\ 0 <= s /\ s < 60) /\
  (hours <= 0 -> (h <= 0)%Z /\ (-59 <= m <= 0)%Z /\ -60 < s /\ s <= 0) /\
  (-1 < hours -> hours < 0 -> h = 0%Z).
Proof.
  unfold hms_parts. split; [|split].
  - intro H. destruct (sexagesimal_split hours H) as (Hd & Hm & Hs0 & Hs1 & _).
    destruct (int_part_nonneg hours H) as (_ & Dlo & Dhi).
    repeat split; try assumption; lia.
  - intro H. assert (H' : 0 <= - hours) by lra.
    destruct (sexagesimal_split (- hours) H') as (Hd & Hm & Hs0 & Hs1 & _).
    rewrite int_opp in Hd, Hm, Hs0, Hs1.
    set (h := PyFormat.int hours) in *.
    assert (E : (- hours - inject_Z (- h)) * 60 == - ((hours - inject_Z h) * 60))
      by (rewrite inject_Z_opp; ring).
    rewrite (int_comp _ _ E), int_opp in Hm, Hs0, Hs1.
    set (m := PyFormat.int ((hours - inject_Z h) * 60)) in *.
    rewrite E, !inject_Z_opp in Hs0, Hs1.
    repeat split; try lia; lra.
  - intros Hlo Hhi.
    pose proof (int_opp hours) as O. rewrite int_nonneg in O by lra.
    rewrite (Qfloor_unique (- hours) 0) in O;
      [lia | change (inject_Z 0) with 0; lra | change (inject_Z 0) with 0; lra].
Qed.

Lemma hours_to_hms_parts_witness :
  let '(h, m, s) := hms_parts (1369 # 200) in
  (0 <= h)%Z /\ inject_Z h <= 1369 # 200 /\ 1369 # 200 < inject_Z h + 1 /\
  (0 <= m <= 59)%Z /\ 0 <= s /\ s < 60.
Proof.
  apply (proj1 (hours_to_hms_parts (1369 # 200))). discriminate.
Defined.

(** X19.  The seconds are rounded to one decimal after the split, and the
    carry is not taken to the minutes: when the seconds part is 59.95 or
    more, [degrees_to_dms] and (for non-negative hours) [hours_to_hms] print
    60.0 seconds next to the unchanged minutes. *)
Theorem seconds_can_print_as_sixty :
  (forall degrees,
     let '(is_negative, d, m, s) := dms_parts degrees in
     (1199 # 20) <= s ->
     degrees_to_dms degrees =
     ((if is_negative then "-" else "+") ++ str_int d ++ "° " ++
      str_int m ++ "' " ++ "60.0" ++ dquote)%string) /\
  (forall hours, 0 <= hours ->
     let '(h, m, s) := hms_parts hours in
     (1199 # 20) <= s ->
     hours_to_hms hours = (str_int h ++ "h " ++ str_int m ++ "m 60.0s")%string).
Proof.
  assert (F : forall s, (1199 # 20) <= s -> s < 60 -> format_f 1 s = "60.0"%string).
  { intros s Hlo Hhi. unfold format_f. rewrite format_nonneg by lra.
    rewrite (round_tie_low _ 600); [reflexivity | reflexivity | |];
      change (inject_Z (10 ^ Z.of_nat 1)) with 10;
      change (inject_Z 600) with 600; lra. }
  split.
  - intro degrees.
    destruct (sexagesimal_split (Qabs degrees) (Qabs_nonneg degrees))
      as (_ & _ & _ & Hs & _).
    unfold degrees_to_dms, dms_parts. intro Hlo.
    rewrite (F _ Hlo Hs). reflexivity.
  - intros hours H.
    destruct (sexagesimal_split hours H) as (_ & _ & _ & Hs & _).
    unfold hours_to_hms, hms_parts. intro Hlo.
    rewrite (F _ Hlo Hs). reflexivity.
Qed.

Lemma seconds_can_print_as_sixty_witness :
  degrees_to_dms (359999 # 360000) = ("+0° 59' 60.0" ++ dquote)%string.
Proof.
  apply (proj1 seconds_can_print_as_sixty (359999 # 360000)). discriminate.
Defined.

(** ** voyager.py: the light time *)

Example light_time_of_voyager_1 :
  VoyagerProbe.printed_light_time
    (VoyagerProbe.init "Voyager 1" 1977 24900000000 38210) = (23%Z, 4%Z).
Proof. reflexivity. Qed.



(** ** The detector on a single pass above the horizon *)



